(** * MyScaleRM: a shallow embedding of dspy/retrieve/MyScaleRM.py

    The retrieval module picks an embedding source, asks it for the embedding
    of the user's query, composes a nearest-neighbour SQL string, sends it to
    the database client and reshapes the returned rows into passages.

    Everything the module delegates to (the OpenAI endpoint, transformers and
    torch, the ClickHouse client, the formatting of floats) is a field of
    [Externals] or of the [Client] handle; the Python object [self], the
    process environment, the memoisation cache and the trace of library calls
    are threaded through a state-and-exception monad. *)

From Stdlib Require Import ZArith String Ascii List Floats.
From stdpp Require Import base option list gmap strings pretty.

Import ListNotations.
Local Open Scope string_scope.
Local Open Scope Z_scope.

(** ** Python values that occur in the module *)

(** A Python [float] is an IEEE-754 double. *)
Definition pyfloat : Type := PrimFloat.float.

(** Values stored in a metadata column of a result row. *)
Inductive value : Type :=
| VNone
| VInt (n : Z)
| VFloat (x : pyfloat)
| VStr (s : string).

(** A row of [result.named_results()]: a dict from column name to value. *)
Abbreviation row := (gmap string value).

(** Exceptions.  The first five carry their Python class and are raised by
    a statement of the module itself: a [raise], an [import], a subscript,
    an attribute access, the assignment to [os.environ] (the argument is the
    message or the key).  [External] is any exception that escapes from a
    call into torch, transformers, openai or the database client, whatever
    its Python class, with [str(e)] as argument. *)
Inductive exn : Type :=
| ValueError (msg : string)
| ModuleNotFoundError (msg : string)
| IndexError (msg : string)
| KeyError (key : string)
| AttributeError (attr : string)
| External (msg : string).

Inductive result (A : Type) : Type :=
| Ok (a : A)
| Raise (e : exn).
Arguments Ok {A} a.
Arguments Raise {A} e.

(** What a library call comes back with: its value, or an exception of the
    library with the given [str(e)]. *)
Inductive reply (A : Type) : Type :=
| Answer (a : A)
| Fails (msg : string).
Arguments Answer {A} a.
Arguments Fails {A} msg.

Definition nl : string := String (ascii_of_nat 10) EmptyString.

(** [str(e)] *)
Definition exn_str (e : exn) : string :=
  match e with
  | ValueError msg | ModuleNotFoundError msg | IndexError msg | External msg => msg
  | KeyError key => "'" +:+ key +:+ "'"
  | AttributeError attr => "'MyScaleRM' object has no attribute '" +:+ attr +:+ "'"
  end.

(** Python truthiness of an [Optional[str]]: [None] and [''] are falsy. *)
Definition truthy (o : option string) : bool :=
  match o with
  | Some s => negb (String.eqb s "")
  | None => false
  end.

(** ** The objects the module holds *)

Inductive torch_device : Type := Cuda0 | Mps | Cpu.

(** The pretrained encoder: which checkpoint it came from, whether it is in
    training mode, and where [.to] last moved it. *)
Record LocalModel : Type := {
  lm_name : string;
  lm_training : bool;
  lm_device : option torch_device
}.

Record Tokenizer : Type := { tok_name : string }.

(** [clickhouse_connect] client: [query(sql)] followed by [named_results()]. *)
Record Client : Type := {
  query : string -> reply (list row)
}.

(** The attributes of a [MyScaleRM] instance.  The last three do not exist
    before [setup_local_model] assigns them, hence the options. *)
Record MyScaleRM : Type := {
  client : Client;
  database : string;
  table : string;
  metadata_columns : list string;
  vector_column : string;
  k : Z;
  openai_api_key : option string;
  model : option string;
  use_local_model : bool;
  _local_embed_model : option LocalModel;
  _local_tokenizer : option Tokenizer;
  device : option torch_device
}.

(** ** The world outside the module *)

(** What [import torch] binds, when torch is installed. *)
Record Torch : Type := {
  torch_cuda_is_available : bool;
  torch_mps_is_available : bool;
  (** [module.to(device)]: [Some msg] when the move raises *)
  torch_to_device_error : LocalModel -> torch_device -> option string;
  (** forward pass on the inputs moved to the device, then
      [last_hidden_state.mean(dim=1).cpu().numpy().tolist()]: one pooled
      vector per sequence of the batch *)
  torch_pooled_output :
    LocalModel -> torch_device -> list (list Z) -> reply (list (list pyfloat))
}.

Record Externals : Type := {
  (** [None] when [import torch] raises *)
  torch : option Torch;
  (** [from transformers import AutoModel, AutoTokenizer] succeeds *)
  transformers_installed : bool;
  AutoModel_from_pretrained : string -> reply LocalModel;
  AutoTokenizer_from_pretrained : string -> reply Tokenizer;
  (** [tokenizer(query, return_tensors="pt", padding=True, truncation=True)]:
      the token ids of every sequence of the batch *)
  tokenize : Tokenizer -> list string -> reply (list (list Z));
  (** [openai.embeddings.create(model=, input=)] under the given
      OPENAI_API_KEY: the [embedding] of every item of [response.data] *)
  openai_embeddings_create :
    option string -> option string -> list string -> reply (list (list pyfloat));
  (** [repr] of a float *)
  float_repr : pyfloat -> string;
  (** [dsp.modules.cache_utils.cache_turn_on] *)
  cache_turn_on : bool
}.

(** [import torch] succeeds. *)
Definition torch_installed (E : Externals) : bool :=
  match torch E with
  | Some _ => true
  | None => false
  end.

(** The two imports of lines 104-105 succeed. *)
Definition libs_installed (E : Externals) : bool :=
  torch_installed E && transformers_installed E.

(** The functions of torch, as the code reaches them past its import. *)
Definition cuda_is_available (E : Externals) : bool :=
  match torch E with
  | Some T => torch_cuda_is_available T
  | None => false
  end.

Definition mps_is_available (E : Externals) : bool :=
  match torch E with
  | Some T => torch_mps_is_available T
  | None => false
  end.

Definition to_device_error (E : Externals) (m : LocalModel) (d : torch_device)
    : option string :=
  match torch E with
  | Some T => torch_to_device_error T m d
  | None => None
  end.

Definition local_pooled_output (E : Externals) (m : LocalModel) (d : torch_device)
    (inputs : list (list Z)) : reply (list (list pyfloat)) :=
  match torch E with
  | Some T => torch_pooled_output T m d inputs
  | None => Fails "No module named 'torch'"
  end.

Arguments torch_installed : simpl never.
Arguments libs_installed : simpl never.
Arguments cuda_is_available : simpl never.
Arguments mps_is_available : simpl never.
Arguments to_device_error : simpl never.
Arguments local_pooled_output : simpl never.

(** Calls that leave the module. *)
Inductive event : Type :=
| EvLoadModel (name : string)
| EvLoadTokenizer (name : string)
| EvModelTo (d : torch_device)
| EvOpenAIEmbed (mdl : option string) (input : list string)
| EvTokenize (batch : list string)
| EvLocalForward (d : torch_device) (inputs : list (list Z))
| EvDbQuery (sql : string).

(** Process-wide state: [os.environ], the memoisation cache, and the calls
    made so far (oldest first). *)
Record Process : Type := {
  environ : gmap string string;
  cache : gmap (list string) (list pyfloat);
  calls : list event
}.

Record state : Type := {
  self : MyScaleRM;
  proc : Process
}.

(** ** State and exception monad *)

Definition M (A : Type) : Type := state -> result A * state.

Definition ret {A} (a : A) : M A := fun s => (Ok a, s).
Definition raise {A} (e : exn) : M A := fun s => (Raise e, s).
Definition bind {A B} (m : M A) (f : A -> M B) : M B :=
  fun s => match m s with
           | (Ok a, s') => f a s'
           | (Raise e, s') => (Raise e, s')
           end.
(** [try: body  except Exception as e: handler e] *)
Definition try_except {A} (body : M A) (handler : exn -> M A) : M A :=
  fun s => match body s with
           | (Ok a, s') => (Ok a, s')
           | (Raise e, s') => handler e s'
           end.

Declare Scope py_scope.
Delimit Scope py_scope with py.
Notation "x <- c1 ;; c2" := (bind c1 (fun x => c2))
  (at level 100, c1 at next level, right associativity) : py_scope.
Notation "c1 ;; c2" := (bind c1 (fun _ => c2))
  (at level 100, right associativity) : py_scope.
Local Open Scope py_scope.

Definition gets {A} (f : MyScaleRM -> A) : M A := fun s => (Ok (f (self s)), s).
Definition modify_self (f : MyScaleRM -> MyScaleRM) : M unit :=
  fun s => (Ok tt, {| self := f (self s); proc := proc s |}).
Definition get_proc {A} (f : Process -> A) : M A := fun s => (Ok (f (proc s)), s).
Definition modify_proc (f : Process -> Process) : M unit :=
  fun s => (Ok tt, {| self := self s; proc := f (proc s) |}).
Definition lift {A} (r : result A) : M A := fun s => (r, s).
(** The outcome of a library call, inside the module. *)
Definition call {A} (r : reply A) : M A :=
  fun s => match r with
           | Answer a => (Ok a, s)
           | Fails msg => (Raise (External msg), s)
           end.

Definition log_call (p : Process) (e : event) : Process :=
  {| environ := environ p; cache := cache p; calls := calls p ++ [e] |}.
Definition emit (e : event) : M unit := modify_proc (fun p => log_call p e).

(** Reading an attribute that may not have been assigned yet. *)
Definition getattr {A} (name : string) (f : MyScaleRM -> option A) : M A :=
  fun s => match f (self s) with
           | Some a => (Ok a, s)
           | None => (Raise (AttributeError name), s)
           end.

(** Attribute assignments [self.x = v]. *)
Definition set_use_local_model (b : bool) (o : MyScaleRM) : MyScaleRM :=
  {| client := client o; database := database o; table := table o;
     metadata_columns := metadata_columns o; vector_column := vector_column o;
     k := k o; openai_api_key := openai_api_key o; model := model o;
     use_local_model := b;
     _local_embed_model := _local_embed_model o;
     _local_tokenizer := _local_tokenizer o; device := device o |}.

Definition set_local_embed_model (m : option LocalModel) (o : MyScaleRM) : MyScaleRM :=
  {| client := client o; database := database o; table := table o;
     metadata_columns := metadata_columns o; vector_column := vector_column o;
     k := k o; openai_api_key := openai_api_key o; model := model o;
     use_local_model := use_local_model o;
     _local_embed_model := m;
     _local_tokenizer := _local_tokenizer o; device := device o |}.

Definition set_local_tokenizer (t : option Tokenizer) (o : MyScaleRM) : MyScaleRM :=
  {| client := client o; database := database o; table := table o;
     metadata_columns := metadata_columns o; vector_column := vector_column o;
     k := k o; openai_api_key := openai_api_key o; model := model o;
     use_local_model := use_local_model o;
     _local_embed_model := _local_embed_model o;
     _local_tokenizer := t; device := device o |}.

Definition set_device (d : option torch_device) (o : MyScaleRM) : MyScaleRM :=
  {| client := client o; database := database o; table := table o;
     metadata_columns := metadata_columns o; vector_column := vector_column o;
     k := k o; openai_api_key := openai_api_key o; model := model o;
     use_local_model := use_local_model o;
     _local_embed_model := _local_embed_model o;
     _local_tokenizer := _local_tokenizer o; device := d |}.

(** The process after the variable [key] has taken the value [val]. *)
Definition set_environ (key val : string) (p : Process) : Process :=
  {| environ := <[key := val]> (environ p); cache := cache p; calls := calls p |}.

Definition set_cache (key : list string) (val : list pyfloat) (p : Process) : Process :=
  {| environ := environ p; cache := <[key := val]> (cache p); calls := calls p |}.

(** [module.eval()] and a successful [module.to(d)], on the object itself. *)
Definition eval_mode (m : LocalModel) : LocalModel :=
  {| lm_name := lm_name m; lm_training := false; lm_device := lm_device m |}.
Definition moved_to (d : torch_device) (m : LocalModel) : LocalModel :=
  {| lm_name := lm_name m; lm_training := lm_training m; lm_device := Some d |}.

(** ** The module *)

Module Msg.
Definition metadata_required : string := "metadata_columns is required".
Definition no_embedding_source : string :=
  "No valid method for obtaining embeddings is configured.".
Definition query_required : string := "Query is required".
Definition load_failed (e : exn) : string :=
  "Failed to load model or tokenizer. Error: " +:+ exn_str e.
Definition libs_missing : string :=
  "You need to install PyTorch and Hugging Face's transformers library to use a local embedding model. "
  +:+ nl +:+
  "                Install the pytorch using `pip install torch` and transformers using `pip install transformers` ".
Definition index_out_of_range : string := "list index out of range".
Definition no_torch : string := "No module named 'torch'".
Definition null_byte : string := "embedded null byte".
End Msg.

(** The string holds a NUL character. *)
Fixpoint has_nul (s : string) : bool :=
  match s with
  | EmptyString => false
  | String c r => Ascii.eqb c Ascii.zero || has_nul r
  end.

(** [os.environ[key] = val] for the variable name of line 91: a value with
    an embedded NUL is refused with a ValueError and nothing is written. *)
Definition environ_setitem (key val : string) : M unit :=
  if has_nul val then raise (ValueError Msg.null_byte)
  else modify_proc (set_environ key val).

Section WithExternals.

Context (E : Externals).

(** [MyScaleRM.setup_local_model], lines 93-126. *)
Definition setup_local_model (model_name : string) : M unit :=
  (if libs_installed E then ret tt
   else raise (ModuleNotFoundError Msg.libs_missing)) ;;
  try_except
    (emit (EvLoadModel model_name) ;;
     m <- call (AutoModel_from_pretrained E model_name) ;;
     modify_self (set_local_embed_model (Some m)) ;;
     emit (EvLoadTokenizer model_name) ;;
     t <- call (AutoTokenizer_from_pretrained E model_name) ;;
     modify_self (set_local_tokenizer (Some t)) ;;
     modify_self (set_use_local_model true))
    (fun e => raise (ValueError (Msg.load_failed e))) ;;
  (if cuda_is_available E then modify_self (set_device (Some Cuda0))
   else if mps_is_available E then modify_self (set_device (Some Mps))
   else modify_self (set_device (Some Cpu))) ;;
  m <- getattr "_local_embed_model" _local_embed_model ;;
  d <- getattr "device" device ;;
  emit (EvModelTo d) ;;
  match to_device_error E m d with
  | Some msg => raise (External msg)
  | None => modify_self (set_local_embed_model (Some (moved_to d m)))
  end.

(** [MyScaleRM.__init__], lines 66-91.  The object is handed to the caller
    only when the body finishes, so the three assignments that precede the
    guard on [metadata_columns] are not observable when it raises. *)
Definition __init__
    (client : Client) (table : string) (database : string)
    (metadata_columns : list string) (vector_column : string) (k : Z)
    (openai_api_key openai_model local_embed_model : option string)
    (p : Process) : result MyScaleRM * Process :=
  match metadata_columns with
  | [] => (Raise (ValueError Msg.metadata_required), p)
  | _ :: _ =>
      let o := {| client := client; database := database; table := table;
                  metadata_columns := metadata_columns;
                  vector_column := vector_column; k := k;
                  openai_api_key := openai_api_key; model := openai_model;
                  use_local_model := false;
                  _local_embed_model := None; _local_tokenizer := None;
                  device := None |} in
      let body : M unit :=
        if truthy local_embed_model then
          setup_local_model (default "" local_embed_model)
        else if truthy openai_api_key then
          environ_setitem "OPENAI_API_KEY" (default "" openai_api_key)
        else ret tt in
      match body {| self := o; proc := p |} with
      | (Ok _, s) => (Ok (self s), proc s)
      | (Raise e, s) => (Raise e, proc s)
      end
  end.

(** [MyScaleRM._get_embeddings_from_openai], lines 155-169:
    [response.data[0].embedding]. *)
Definition _get_embeddings_from_openai (queries : list string) : M (list pyfloat) :=
  mdl <- gets model ;;
  key <- get_proc (fun p => environ p !! "OPENAI_API_KEY") ;;
  emit (EvOpenAIEmbed mdl queries) ;;
  data <- call (openai_embeddings_create E key mdl queries) ;;
  match data with
  | embedding :: _ => ret embedding
  | [] => raise (IndexError Msg.index_out_of_range)
  end.

(** [MyScaleRM._get_embedding_from_local_model], lines 171-189.  The
    parameter is annotated [str], the only caller passes the whole list. *)
Definition _get_embedding_from_local_model (query : list string) : M (list pyfloat) :=
  (if torch_installed E then ret tt
   else raise (ModuleNotFoundError Msg.no_torch)) ;;
  m <- getattr "_local_embed_model" _local_embed_model ;;
  modify_self (set_local_embed_model (Some (eval_mode m))) ;;
  tok <- getattr "_local_tokenizer" _local_tokenizer ;;
  emit (EvTokenize query) ;;
  inputs <- call (tokenize E tok query) ;;
  d <- getattr "device" device ;;
  m' <- getattr "_local_embed_model" _local_embed_model ;;
  emit (EvLocalForward d inputs) ;;
  pooled <- call (local_pooled_output E m' d inputs) ;;
  match pooled with
  | embedding :: _ => ret embedding
  | [] => raise (IndexError Msg.index_out_of_range)
  end.

(** [MyScaleRM._get_embeddings], lines 134-153. *)
Definition _get_embeddings (queries : list string) : M (list pyfloat) :=
  key <- gets openai_api_key ;;
  mdl <- gets model ;;
  if truthy key && truthy mdl then _get_embeddings_from_openai queries
  else
    local <- gets use_local_model ;;
    if local then _get_embedding_from_local_model queries
    else raise (ValueError Msg.no_embedding_source).

(** Modelled from the spec: [CacheMemory.cache] of dsp.modules.cache_utils,
    which is not part of the sources at hand.  Section 4.1: the computation
    is wrapped in a memoizing cache keyed by the input batch; identical
    batches short-circuit to a previously computed result rather than
    recomputing. *)
Definition CacheMemory_cache
    (f : list string -> M (list pyfloat)) (queries : list string) : M (list pyfloat) :=
  hit <- get_proc (fun p => cache p !! queries) ;;
  match hit with
  | Some v => ret v
  | None =>
      v <- f queries ;;
      modify_proc (set_cache queries v) ;;
      ret v
  end.

(** [MyScaleRM.get_embeddings], lines 128-132. *)
Definition get_embeddings (queries : list string) : M (list pyfloat) :=
  if cache_turn_on E then CacheMemory_cache _get_embeddings queries
  else _get_embeddings queries.

(** [str(v)], as the f-string of line 221 formats a column value.  (The
    interpreter's cap on the digits of an integer it prints, 4300 unless
    reconfigured, is not modelled, here and for [k] in [sql_query].) *)
Definition py_str (v : value) : string :=
  match v with
  | VNone => "None"
  | VInt n => pretty n
  | VFloat x => float_repr E x
  | VStr s => s
  end.

(** [str] of a list of floats, as the f-string of line 212 formats
    [embeddings]. *)
Definition list_repr (l : list pyfloat) : string :=
  "[" +:+ String.concat ", " (map (float_repr E) l) +:+ "]".

(** [row[column]] *)
Definition getitem (r : row) (column : string) : result value :=
  match r !! column with
  | Some v => Ok v
  | None => Raise (KeyError column)
  end.

(** [[f"{column}: {row[column]}" for column in self.metadata_columns]] *)
Fixpoint row_strings (r : row) (columns : list string) : result (list string) :=
  match columns with
  | [] => Ok []
  | column :: rest =>
      match getitem r column with
      | Raise e => Raise e
      | Ok v =>
          match row_strings r rest with
          | Raise e => Raise e
          | Ok l => Ok ((column +:+ ": " +:+ py_str v) :: l)
          end
      end
  end.

(** The body of the loop of lines 217-223: the passage appended for one row. *)
Definition format_row (columns : list string) (r : row) : result value :=
  if (length columns =? 1)%nat then
    match columns with
    | column :: _ => getitem r column
    | [] => Raise (IndexError Msg.index_out_of_range)
    end
  else
    match row_strings r columns with
    | Raise e => Raise e
    | Ok l => Ok (VStr (String.concat nl l))
    end.

(** The loop of lines 216-223, [results] being the list built so far. *)
Fixpoint format_rows (columns : list string) (rows : list row) (results : list value)
    : result (list value) :=
  match rows with
  | [] => Ok results
  | r :: rest =>
      match format_row columns r with
      | Raise e => Raise e
      | Ok passage => format_rows columns rest (results ++ [passage])
      end
  end.

(** The f-string of lines 210-213. *)
Definition sql_query (columns_string vector_column : string)
    (embeddings : list pyfloat) (database table : string) (k : Z) : string :=
  nl +:+ "        SELECT " +:+ columns_string +:+ "," +:+ nl
  +:+ "        distance(" +:+ vector_column +:+ ", " +:+ list_repr embeddings
  +:+ ") as dist FROM " +:+ database +:+ "." +:+ table
  +:+ " ORDER BY dist LIMIT " +:+ pretty k +:+ nl +:+ "        ".

(** The statement [forward] sends for object [o], embedding [embeddings]
    and limit [kk]. *)
Definition forward_sql (o : MyScaleRM) (embeddings : list pyfloat) (kk : Z) : string :=
  sql_query (String.concat ", " (metadata_columns o)) (vector_column o)
    embeddings (database o) (table o) kk.

(** [dotdict({"long_text": passage})] and [dspy.Prediction(passages=...)]. *)
Record dotdict : Type := { long_text : value }.
Record Prediction : Type := { passages : list dotdict }.

(** [MyScaleRM.forward], lines 191-225. *)
Definition forward (user_query : option string) (k_arg : option Z) : M Prediction :=
  match user_query with
  | None => raise (ValueError Msg.query_required)
  | Some q =>
      kk <- match k_arg with Some v => ret v | None => gets k end ;;
      embeddings <- get_embeddings [q] ;;
      columns <- gets metadata_columns ;;
      vc <- gets vector_column ;;
      db <- gets database ;;
      tb <- gets table ;;
      c <- gets client ;;
      let sql := sql_query (String.concat ", " columns) vc embeddings db tb kk in
      emit (EvDbQuery sql) ;;
      rows <- call (query c sql) ;;
      columns <- gets metadata_columns ;;
      results <- lift (format_rows columns rows []) ;;
      ret {| passages := map (fun passage => {| long_text := passage |}) results |}
  end.

End WithExternals.

(** ** The import-time check of the OpenAI library version *)

(** The whitespace [int] strips around the number of an ASCII string: tab
    to carriage return, and the space. *)
Definition is_space (c : ascii) : bool :=
  let n := N_of_ascii c in
  ((9 <=? n) && (n <=? 13) || (n =? 32))%N.

Definition digit_value (c : ascii) : option N :=
  let n := N_of_ascii c in
  if ((48 <=? n) && (n <=? 57))%N then Some (n - 48)%N else None.

Fixpoint skip_spaces (s : string) : string :=
  match s with
  | String c r => if is_space c then skip_spaces r else s
  | EmptyString => EmptyString
  end.

Fixpoint all_spaces (s : string) : bool :=
  match s with
  | String c r => is_space c && all_spaces r
  | EmptyString => true
  end.

(** The digits of a decimal literal, single underscores allowed between
    digits, up to the whitespace that may follow the literal. *)
Fixpoint int_digits (s : string) (acc : N) (after_digit : bool) : option N :=
  match s with
  | EmptyString => if after_digit then Some acc else None
  | String c r =>
      match digit_value c with
      | Some d => int_digits r (10 * acc + d)%N true
      | None =>
          if negb after_digit then None
          else if Ascii.eqb c "_" then int_digits r acc false
          else if all_spaces s then Some acc
          else None
      end
  end.

(** [int(s)] in base ten for ASCII text, [None] standing for the ValueError:
    surrounding whitespace, an optional sign, then the digits.  (The
    interpreter's cap on the number of digits, 4300 unless reconfigured, is
    not modelled; the statements below keep within it.) *)
Definition py_int (s : string) : option Z :=
  match skip_spaces s with
  | String "+" r => Z.of_N <$> int_digits r 0%N false
  | String "-" r => (fun n => - Z.of_N n) <$> int_digits r 0%N false
  | t => Z.of_N <$> int_digits t 0%N false
  end.

(** [s.split(sep)] for a one-character separator. *)
Fixpoint py_split (sep : ascii) (s : string) : list string :=
  match s with
  | EmptyString => [EmptyString]
  | String c r =>
      if Ascii.eqb c sep then EmptyString :: py_split sep r
      else match py_split sep r with
           | h :: t => String c h :: t
           | [] => [String c EmptyString]
           end
  end.

(** Lines 19-23, as a function of [openai.__version__]: any exception of the
    [try] body (a component that is no integer, more or fewer than three
    components) gives False. *)
Definition OPENAI_VERSION_COMPATIBLE (version : string) : bool :=
  match py_split "." version with
  | [a; b; c] =>
      match py_int a, py_int b, py_int c with
      | Some major, Some minor, Some _ => (1 <=? major) && (16 <=? minor)
      | _, _, _ => false
      end
  | _ => false
  end.

(** The number of occurrences of a character. *)
Fixpoint count_char (c : ascii) (s : string) : nat :=
  match s with
  | EmptyString => 0%nat
  | String c' r => ((if Ascii.eqb c' c then 1 else 0) + count_char c r)%nat
  end.

(** A string of decimal digits. *)
Fixpoint digits_only (s : string) : bool :=
  match s with
  | EmptyString => true
  | String c r =>
      match digit_value c with
      | Some _ => digits_only r
      | None => false
      end
  end.

(** ** Predicates used in the statements *)

(** A library call that came back with a value. *)
Definition is_Answer {A} (r : reply A) : Prop :=
  match r with
  | Answer _ => True
  | Fails _ => False
  end.

(** The device [setup_local_model] selects. *)
Definition selected_device (E : Externals) : torch_device :=
  if cuda_is_available E then Cuda0
  else if mps_is_available E then Mps else Cpu.


(** Whatever the outcome of [m], the final state is related to the initial
    one by [R]. *)
Definition keeps (R : relation state) {A} (m : M A) : Prop :=
  forall s, R s (snd (m s)).

(** The attributes assigned from the constructor's arguments. *)
Definition same_config (o o' : MyScaleRM) : Prop :=
  client o' = client o /\ database o' = database o /\ table o' = table o
  /\ metadata_columns o' = metadata_columns o
  /\ vector_column o' = vector_column o /\ k o' = k o
  /\ openai_api_key o' = openai_api_key o /\ model o' = model o.

Definition config_kept : relation state :=
  fun s s' => same_config (self s) (self s')
              /\ use_local_model (self s') = use_local_model (self s).

Definition config_only_kept : relation state :=
  fun s s' => same_config (self s) (self s').

Definition environ_kept : relation state :=
  fun s s' => environ (proc s') = environ (proc s).

(** ** Concrete worlds for the examples *)

Module Demo.

Definition repr (x : pyfloat) : string :=
  if PrimFloat.eqb x 0.5%float then "0.5"
  else if PrimFloat.eqb x 0.25%float then "0.25"
  else if PrimFloat.eqb x 2%float then "2.0"
  else "1.0".

(** A three-dimensional vector that starts with the float of [n]. *)
Definition vec (n : Z) : list pyfloat :=
  [PrimFloat.of_uint63 (Uint63.of_Z n); 0.5%float; 0.25%float].

Definition rows2 : list row :=
  [ {[ "text" := VStr "first"; "id" := VInt 7 ; "dist" := VFloat 0.25%float ]};
    {[ "text" := VStr "second"; "id" := VInt 9 ; "dist" := VFloat 0.5%float ]} ].

Definition db : Client := {| query := fun _ => Answer rows2 |}.

(** Every library is installed and answers; the embedding services return
    one three-dimensional vector per input string. *)
Definition world : Externals := {|
  torch := Some {|
    torch_cuda_is_available := false;
    torch_mps_is_available := false;
    torch_to_device_error := fun _ _ => None;
    torch_pooled_output :=
      fun _ _ inputs =>
        Answer (map (fun ids => vec (default 0 (head ids))) inputs)
  |};
  transformers_installed := true;
  AutoModel_from_pretrained :=
    fun n => Answer {| lm_name := n; lm_training := true; lm_device := None |};
  AutoTokenizer_from_pretrained := fun n => Answer {| tok_name := n |};
  tokenize := fun _ qs => Answer (map (fun q => [Z.of_nat (String.length q)]) qs);
  openai_embeddings_create :=
    fun _ _ qs =>
      Answer (map (fun q => vec (Z.of_nat (String.length q))) qs);
  float_repr := repr;
  cache_turn_on := false
|}.

(** The same, where the tokenizer checkpoint cannot be loaded. *)
Definition world_no_tokenizer : Externals := {|
  torch := Some {|
    torch_cuda_is_available := false;
    torch_mps_is_available := false;
    torch_to_device_error := to_device_error world;
    torch_pooled_output :=
      local_pooled_output world
  |};
  transformers_installed := true;
  AutoModel_from_pretrained :=
    AutoModel_from_pretrained world;
  AutoTokenizer_from_pretrained := fun _ => Fails "not a valid model identifier";
  tokenize := tokenize world;
  openai_embeddings_create :=
    openai_embeddings_create world;
  float_repr := repr;
  cache_turn_on := false
|}.

(** The same as [world], where moving the encoder to the device fails. *)
Definition world_move_fails : Externals := {|
  torch := Some {|
    torch_cuda_is_available := true;
    torch_mps_is_available := false;
    torch_to_device_error := fun _ _ => Some "CUDA out of memory";
    torch_pooled_output :=
      local_pooled_output world
  |};
  transformers_installed := true;
  AutoModel_from_pretrained :=
    AutoModel_from_pretrained world;
  AutoTokenizer_from_pretrained := AutoTokenizer_from_pretrained world;
  tokenize := tokenize world;
  openai_embeddings_create :=
    openai_embeddings_create world;
  float_repr := repr;
  cache_turn_on := false
|}.

Definition p0 : Process := {| environ := ∅; cache := ∅; calls := [] |}.

(** An adapter on the remote path and one on the local path. *)
Definition remote_rm : MyScaleRM := {|
  client := db; database := "default"; table := "docs";
  metadata_columns := ["text"]; vector_column := "vector"; k := 3;
  openai_api_key := Some "sk"; model := Some "text-embedding-3-small";
  use_local_model := false;
  _local_embed_model := None; _local_tokenizer := None; device := None |}.

Definition local_rm : MyScaleRM := {|
  client := db; database := "default"; table := "docs";
  metadata_columns := ["text"; "id"]; vector_column := "vector"; k := 3;
  openai_api_key := None; model := None;
  use_local_model := true;
  _local_embed_model := Some {| lm_name := "bert"; lm_training := true; lm_device := Some Cpu |};
  _local_tokenizer := Some {| tok_name := "bert" |}; device := Some Cpu |}.

(** Remote configuration and a loaded local model at once. *)
Definition both_rm : MyScaleRM := {|
  client := db; database := "default"; table := "docs";
  metadata_columns := ["text"]; vector_column := "vector"; k := 3;
  openai_api_key := Some "sk"; model := Some "text-embedding-3-small";
  use_local_model := true;
  _local_embed_model := Some {| lm_name := "bert"; lm_training := true; lm_device := Some Cpu |};
  _local_tokenizer := Some {| tok_name := "bert" |}; device := Some Cpu |}.

Definition p_key : Process :=
  {| environ := {[ "OPENAI_API_KEY" := "sk" ]}; cache := ∅; calls := [] |}.

Definition remote_state : state := {| self := remote_rm; proc := p_key |}.
Definition local_state : state := {| self := local_rm; proc := p0 |}.
Definition both_state : state := {| self := both_rm; proc := p_key |}.

Definition fresh_rm : MyScaleRM := {|
  client := db; database := "default"; table := "docs";
  metadata_columns := ["text"]; vector_column := "vector"; k := 3;
  openai_api_key := None; model := None;
  use_local_model := false;
  _local_embed_model := None; _local_tokenizer := None; device := None |}.

End Demo.

(** Further worlds and adapters for the examples. *)
Module DemoExtra.

(** As [Demo.world], where the encoder checkpoint cannot be loaded. *)
Definition world_no_encoder : Externals := {|
  torch := Some {|
    torch_cuda_is_available := false;
    torch_mps_is_available := true;
    torch_to_device_error := to_device_error Demo.world;
    torch_pooled_output :=
      local_pooled_output Demo.world
  |};
  transformers_installed := true;
  AutoModel_from_pretrained :=
    fun _ => Fails "not a valid model identifier";
  AutoTokenizer_from_pretrained := AutoTokenizer_from_pretrained Demo.world;
  tokenize := tokenize Demo.world;
  openai_embeddings_create :=
    openai_embeddings_create Demo.world;
  float_repr := Demo.repr;
  cache_turn_on := false
|}.

(** As [Demo.world], where the embedding service turns requests away. *)
Definition world_rate_limited : Externals := {|
  torch := Some {|
    torch_cuda_is_available := false;
    torch_mps_is_available := false;
    torch_to_device_error := to_device_error Demo.world;
    torch_pooled_output :=
      local_pooled_output Demo.world
  |};
  transformers_installed := true;
  AutoModel_from_pretrained :=
    AutoModel_from_pretrained Demo.world;
  AutoTokenizer_from_pretrained := AutoTokenizer_from_pretrained Demo.world;
  tokenize := tokenize Demo.world;
  openai_embeddings_create :=
    fun _ _ _ => Fails "Rate limit reached";
  float_repr := Demo.repr;
  cache_turn_on := false
|}.

(** As [Demo.world], without torch. *)
Definition world_no_torch : Externals := {|
  torch := None;
  transformers_installed := true;
  AutoModel_from_pretrained := AutoModel_from_pretrained Demo.world;
  AutoTokenizer_from_pretrained := AutoTokenizer_from_pretrained Demo.world;
  tokenize := tokenize Demo.world;
  openai_embeddings_create := openai_embeddings_create Demo.world;
  float_repr := Demo.repr;
  cache_turn_on := false
|}.

(** As [Demo.world], where the database is down. *)
Definition db_down : Client := {| query := fun _ => Fails "connection refused" |}.

(** An adapter asking for a column the rows do not have. *)
Definition title_rm : MyScaleRM := {|
  client := Demo.db; database := "default"; table := "docs";
  metadata_columns := ["text"; "title"]; vector_column := "vector"; k := 3;
  openai_api_key := Some "sk"; model := Some "text-embedding-3-small";
  use_local_model := false;
  _local_embed_model := None; _local_tokenizer := None; device := None |}.

Definition title_state : state := {| self := title_rm; proc := Demo.p_key |}.

(** The remote adapter of [Demo] on the database that is down. *)
Definition down_rm : MyScaleRM := {|
  client := db_down; database := "default"; table := "docs";
  metadata_columns := ["text"]; vector_column := "vector"; k := 3;
  openai_api_key := Some "sk"; model := Some "text-embedding-3-small";
  use_local_model := false;
  _local_embed_model := None; _local_tokenizer := None; device := None |}.

Definition down_state : state := {| self := down_rm; proc := Demo.p_key |}.

Definition fresh_state : state := {| self := Demo.fresh_rm; proc := Demo.p0 |}.

End DemoExtra.

Ltac unfold_monad :=
  unfold bind, ret, raise, try_except, gets, get_proc, modify_self,
    modify_proc, emit, lift, call, getattr in *.

(** ** Frame reasoning for monadic code *)

Section Frame.

Context (R : relation state) `{!PreOrder R}.

Lemma keeps_ret {A} (a : A) : keeps R (ret a).
Proof. intros s. reflexivity. Qed.

Lemma keeps_raise {A} (e : exn) : keeps R (@raise A e).
Proof. intros s. reflexivity. Qed.

Lemma keeps_lift {A} (r : result A) : keeps R (lift r).
Proof. intros s. reflexivity. Qed.

Lemma keeps_call {A} (r : reply A) : keeps R (call r).
Proof. intros s. unfold call. destruct r; reflexivity. Qed.

Lemma keeps_gets {A} (f : MyScaleRM -> A) : keeps R (gets f).
Proof. intros s. reflexivity. Qed.

Lemma keeps_get_proc {A} (f : Process -> A) : keeps R (get_proc f).
Proof. intros s. reflexivity. Qed.

Lemma keeps_getattr {A} name (f : MyScaleRM -> option A) : keeps R (getattr name f).
Proof. intros s. unfold getattr. destruct (f (self s)); reflexivity. Qed.

Lemma keeps_bind {A B} (m : M A) (f : A -> M B) :
  keeps R m -> (forall a, keeps R (f a)) -> keeps R (bind m f).
Proof.
  intros Hm Hf s. unfold bind. specialize (Hm s).
  destruct (m s) as [[a|e] s1]; simpl in *; [|exact Hm].
  etransitivity; [exact Hm|apply Hf].
Qed.

Lemma keeps_try_except {A} (body : M A) (handler : exn -> M A) :
  keeps R body -> (forall e, keeps R (handler e)) -> keeps R (try_except body handler).
Proof.
  intros Hm Hf s. unfold try_except. specialize (Hm s).
  destruct (body s) as [[a|e] s1]; simpl in *; [exact Hm|].
  etransitivity; [exact Hm|apply Hf].
Qed.

Lemma keeps_modify_self f :
  (forall s, R s {| self := f (self s); proc := proc s |}) -> keeps R (modify_self f).
Proof. intros H s. apply H. Qed.

Lemma keeps_modify_proc f :
  (forall s, R s {| self := self s; proc := f (proc s) |}) -> keeps R (modify_proc f).
Proof. intros H s. apply H. Qed.

End Frame.

(** Splits a monadic program along its structure, leaving the writes. *)
Ltac keeps_node :=
  lazymatch goal with
  | |- keeps _ (bind _ _) => apply keeps_bind
  | |- keeps _ (try_except _ _) => apply keeps_try_except
  | |- keeps _ (ret _) => apply keeps_ret
  | |- keeps _ (raise _) => apply keeps_raise
  | |- keeps _ (lift _) => apply keeps_lift
  | |- keeps _ (call _) => apply keeps_call
  | |- keeps _ (gets _) => apply keeps_gets
  | |- keeps _ (get_proc _) => apply keeps_get_proc
  | |- keeps _ (getattr _ _) => apply keeps_getattr
  | |- keeps _ (emit _) => apply keeps_modify_proc
  | |- keeps _ (modify_self _) => apply keeps_modify_self
  | |- keeps _ (modify_proc _) => apply keeps_modify_proc
  | |- keeps _ (match ?x with _ => _ end) => destruct x
  end.
Ltac keeps_step := keeps_node; try exact _; intros.

#[local] Instance config_kept_preorder : PreOrder config_kept.
Proof.
  split.
  - intros s. repeat split.
  - intros s1 s2 s3 [H12 U12] [H23 U23]. unfold same_config in *.
    destruct H12 as (?&?&?&?&?&?&?&?), H23 as (?&?&?&?&?&?&?&?).
    repeat split; etransitivity; eassumption.
Qed.

#[local] Instance config_only_kept_preorder : PreOrder config_only_kept.
Proof.
  split.
  - intros s. repeat split.
  - intros s1 s2 s3 H12 H23. unfold config_only_kept, same_config in *.
    destruct H12 as (?&?&?&?&?&?&?&?), H23 as (?&?&?&?&?&?&?&?).
    repeat split; etransitivity; eassumption.
Qed.

#[local] Instance environ_kept_preorder : PreOrder environ_kept.
Proof. split; unfold environ_kept; [intros s|intros s1 s2 s3]; congruence. Qed.

Section Frames.

Context (E : Externals).

Lemma _get_embeddings_keeps_config queries : keeps config_kept (_get_embeddings E queries).
Proof.
  unfold _get_embeddings, _get_embeddings_from_openai, _get_embedding_from_local_model.
  repeat keeps_step; repeat split.
Qed.

Lemma get_embeddings_keeps_config queries : keeps config_kept (get_embeddings E queries).
Proof.
  unfold get_embeddings, CacheMemory_cache.
  pose proof _get_embeddings_keeps_config.
  repeat keeps_step; auto; repeat split.
Qed.

Lemma forward_keeps_config user_query k_arg : keeps config_kept (forward E user_query k_arg).
Proof.
  unfold forward. pose proof get_embeddings_keeps_config.
  repeat keeps_step; auto; repeat split.
Qed.

Lemma setup_local_model_keeps_environ name : keeps environ_kept (setup_local_model E name).
Proof. unfold setup_local_model. repeat keeps_step; reflexivity. Qed.

Lemma setup_local_model_keeps_config name :
  keeps config_only_kept (setup_local_model E name).
Proof. unfold setup_local_model. repeat keeps_step; repeat split. Qed.

End Frames.

(** ** The retrieval entry point: guards and frame *)

(** C5: [forward] without a query value raises the configuration error
    "Query is required" and stops there: the final state is the initial one,
    so the trace of library calls has gained neither an embedding request nor
    a database query, and the cache is as it was. *)
Theorem forward_without_query (E : Externals) (k_arg : option Z) (s : state) :
  forward E None k_arg s = (Raise (ValueError Msg.query_required), s)
  /\ calls (proc (snd (forward E None k_arg s))) = calls (proc s).
Proof. split; reflexivity. Qed.

(** C7: whether [forward] returns or raises, the object it ran on has the
    same client, database, table, metadata_columns, vector_column, k,
    openai_api_key, model and use_local_model afterwards. *)
Theorem forward_leaves_configuration
    (E : Externals) (user_query : option string) (k_arg : option Z) (s : state) :
  let o := self s in
  let o' := self (snd (forward E user_query k_arg s)) in
  client o' = client o /\ database o' = database o /\ table o' = table o
  /\ metadata_columns o' = metadata_columns o
  /\ vector_column o' = vector_column o /\ k o' = k o
  /\ openai_api_key o' = openai_api_key o /\ model o' = model o
  /\ use_local_model o' = use_local_model o.
Proof.
  destruct (forward_keeps_config E user_query k_arg s) as [(?&?&?&?&?&?&?&?) ?].
  cbv zeta. repeat split; assumption.
Qed.

(** The local-model attributes are not part of that frame: on the local path
    a call puts the encoder into evaluation mode. *)
Example forward_touches_local_model :
  let s := {| self := Demo.local_rm; proc := Demo.p0 |} in
  (lm_training <$> _local_embed_model (self s)) = Some true
  /\ (lm_training <$> _local_embed_model (self (snd (forward Demo.world (Some "hi") None s))))
     = Some false.
Proof. split; reflexivity. Qed.

(** ** Choosing the embedding source *)

Section Routing.

Context (E : Externals).

(** Neither embedding function raises a [ValueError] of the module. *)
Lemma _get_embeddings_from_openai_no_ValueError queries s msg :
  fst (_get_embeddings_from_openai E queries s) <> Raise (ValueError msg).
Proof.
  unfold _get_embeddings_from_openai. unfold_monad. simpl.
  destruct (openai_embeddings_create E _ _ _) as [[|emb data]|err]; simpl; congruence.
Qed.

Lemma _get_embedding_from_local_model_no_ValueError query s msg :
  fst (_get_embedding_from_local_model E query s) <> Raise (ValueError msg).
Proof.
  unfold _get_embedding_from_local_model. unfold_monad. simpl.
  destruct (torch_installed E); simpl; [|congruence].
  destruct (_local_embed_model (self s)) as [m|]; simpl; [|congruence].
  destruct (_local_tokenizer (self s)) as [tok|]; simpl; [|congruence].
  destruct (tokenize E tok query) as [inputs|err]; simpl; [|congruence].
  destruct (device (self s)) as [d|]; simpl; [|congruence].
  destruct (local_pooled_output E _ d inputs) as [[|emb pooled]|err]; simpl; congruence.
Qed.

(** The remote function makes exactly one library call, the embedding
    request for the whole batch under the configured model name. *)
Lemma _get_embeddings_from_openai_calls queries s :
  calls (proc (snd (_get_embeddings_from_openai E queries s)))
  = (calls (proc s) ++ [EvOpenAIEmbed (model (self s)) queries])%list.
Proof.
  unfold _get_embeddings_from_openai. unfold_monad. simpl.
  destruct (openai_embeddings_create E _ _ _) as [[|emb data]|err]; reflexivity.
Qed.

(** The three-way choice of [_get_embeddings], as one equation. *)
Lemma _get_embeddings_unfold queries s :
  _get_embeddings E queries s =
  if truthy (openai_api_key (self s)) && truthy (model (self s))
  then _get_embeddings_from_openai E queries s
  else if use_local_model (self s)
       then _get_embedding_from_local_model E queries s
       else (Raise (ValueError Msg.no_embedding_source), s).
Proof.
  unfold _get_embeddings. unfold_monad. simpl.
  destruct (truthy (openai_api_key (self s)) && truthy (model (self s))); [reflexivity|].
  destruct (use_local_model (self s)); reflexivity.
Qed.

End Routing.

(** C2: [_get_embeddings] runs the OpenAI function when both the API key and
    the model name are set (non-empty), whatever [use_local_model] says, and
    then the one library call it adds to the trace is the remote embedding
    request; otherwise it runs the local-model function when
    [use_local_model] holds; otherwise it raises the configuration error and
    changes nothing.  That error comes out in this last case only. *)
Theorem _get_embeddings_routing (E : Externals) (queries : list string) (s : state) :
  let remote := truthy (openai_api_key (self s)) && truthy (model (self s)) in
  let local := use_local_model (self s) in
  let out := _get_embeddings E queries s in
  out = (if remote then _get_embeddings_from_openai E queries s
         else if local then _get_embedding_from_local_model E queries s
         else (Raise (ValueError Msg.no_embedding_source), s))
  /\ (remote = true ->
      calls (proc (snd out))
      = (calls (proc s) ++ [EvOpenAIEmbed (model (self s)) queries])%list)
  /\ (fst out = Raise (ValueError Msg.no_embedding_source)
      <-> remote = false /\ local = false).
Proof.
  cbv zeta. rewrite _get_embeddings_unfold.
  destruct (truthy (openai_api_key (self s)) && truthy (model (self s))) eqn:Hremote.
  - split; [reflexivity|]. split.
    + intros _. apply _get_embeddings_from_openai_calls.
    + split; [|intros [? _]; discriminate].
      intros H. exfalso. exact (_get_embeddings_from_openai_no_ValueError E _ _ _ H).
  - split; [reflexivity|]. split; [discriminate|].
    destruct (use_local_model (self s)) eqn:Hlocal.
    + split; [|intros [_ ?]; discriminate].
      intros H. exfalso. exact (_get_embedding_from_local_model_no_ValueError E _ _ _ H).
    + simpl. split; auto.
Qed.

(** The precedence, on an adapter that has both a remote configuration and a
    loaded local model: the call goes to the remote service. *)
Lemma _get_embeddings_routing_witness :
  use_local_model (self Demo.both_state) = true
  /\ calls (proc (snd (_get_embeddings Demo.world ["hi"] Demo.both_state)))
     = [EvOpenAIEmbed (Some "text-embedding-3-small") ["hi"]].
Proof.
  split; [reflexivity|].
  exact (proj1 (proj2 (_get_embeddings_routing Demo.world ["hi"] Demo.both_state)) eq_refl).
Defined.

(** ** What the embedding functions return *)

Section FirstEmbedding.

Context (E : Externals).

(** X10: whatever the size of the batch, when the service answers, the
    remote function hands back the embedding of the first item of the
    response alone, and raises IndexError when the response has no item. *)
Lemma _get_embeddings_from_openai_first queries s data :
  openai_embeddings_create E (environ (proc s) !! "OPENAI_API_KEY") (model (self s)) queries
    = Answer data ->
  fst (_get_embeddings_from_openai E queries s)
  = match data with
    | embedding :: _ => Ok embedding
    | [] => Raise (IndexError Msg.index_out_of_range)
    end.
Proof.
  intros H. unfold _get_embeddings_from_openai. unfold_monad. simpl.
  rewrite H. destruct data; reflexivity.
Qed.

(** An answer of the encoder is an answer of torch. *)
Lemma local_pooled_output_torch m d inputs pooled :
  local_pooled_output E m d inputs = Answer pooled -> torch_installed E = true.
Proof.
  unfold local_pooled_output, torch_installed.
  destruct (torch E); [reflexivity|discriminate].
Qed.

(** X11: on an object with encoder, tokenizer and device in place, when
    tokenizer and encoder answer, the local function hands back the first
    pooled vector alone, whatever the size of the batch. *)
Lemma _get_embedding_from_local_model_first query s m tok d inputs pooled :
  _local_embed_model (self s) = Some m ->
  _local_tokenizer (self s) = Some tok ->
  device (self s) = Some d ->
  tokenize E tok query = Answer inputs ->
  local_pooled_output E (eval_mode m) d inputs = Answer pooled ->
  fst (_get_embedding_from_local_model E query s)
  = match pooled with
    | embedding :: _ => Ok embedding
    | [] => Raise (IndexError Msg.index_out_of_range)
    end.
Proof.
  intros Hm Ht Hd Htok Hout.
  unfold _get_embedding_from_local_model. unfold_monad. simpl.
  rewrite (local_pooled_output_torch _ _ _ _ Hout). simpl.
  rewrite Hm. simpl. rewrite Ht. simpl. rewrite Htok. simpl. rewrite Hd. simpl.
  rewrite Hout. destruct pooled; reflexivity.
Qed.

End FirstEmbedding.

(** C1, at a batch of two queries.  The remote service and the local encoder
    both answer with one vector per string, [vec 1] for "a" and [vec 2] for
    "bb"; [get_embeddings] returns [vec 1] alone on either path: a flat list
    of three floats, not a list of two embeddings. *)
Theorem get_embeddings_first_only :
  openai_embeddings_create Demo.world (Some "sk") (Some "text-embedding-3-small") ["a"; "bb"]
    = Answer [Demo.vec 1; Demo.vec 2]
  /\ fst (get_embeddings Demo.world ["a"; "bb"] Demo.remote_state) = Ok (Demo.vec 1)
  /\ fst (get_embeddings Demo.world ["a"; "bb"] Demo.local_state) = Ok (Demo.vec 1)
  /\ length (Demo.vec 1) <> length ["a"; "bb"].
Proof. repeat split; try reflexivity. discriminate. Qed.

(** ** Formatting rows into passages *)

Section Formatter.

Context (E : Externals).

Lemma row_strings_Forall2 (r : row) (columns : list string) (vals : list value) :
  Forall2 (fun c v => r !! c = Some v) columns vals ->
  row_strings E r columns
  = Ok (zip_with (fun c v => c +:+ ": " +:+ py_str E v) columns vals).
Proof.
  induction 1 as [|c v columns vals Hc _ IH]; [reflexivity|].
  simpl. unfold getitem. rewrite Hc, IH. reflexivity.
Qed.

Lemma format_row_total (columns : list string) (r : row) :
  (forall c, c ∈ columns -> is_Some (r !! c)) ->
  exists passage, format_row E columns r = Ok passage.
Proof.
  intros Hall.
  assert (exists vals, Forall2 (fun c v => r !! c = Some v) columns vals) as [vals Hvals].
  { induction columns as [|c columns IH]; [exists []; constructor|].
    destruct (Hall c) as [v Hv]; [left|].
    destruct IH as [vals Hvals]; [intros c' Hc'; apply Hall; right; exact Hc'|].
    exists (v :: vals). constructor; assumption. }
  unfold format_row.
  destruct (length columns =? 1)%nat eqn:Hlen.
  - destruct Hvals as [|c v columns vals Hc _]; [discriminate|].
    unfold getitem. rewrite Hc. eauto.
  - rewrite (row_strings_Forall2 _ _ _ Hvals). eauto.
Qed.

(** The loop appends, row after row, to what it has so far. *)
Lemma format_rows_Ok columns rows : forall results out,
  format_rows E columns rows results = Ok out ->
  exists ps, out = (results ++ ps)%list
             /\ Forall2 (fun r p => format_row E columns r = Ok p) rows ps.
Proof.
  induction rows as [|r rows IH]; intros results out H; simpl in H.
  - inversion H; subst. exists []. split; [symmetry; apply app_nil_r|constructor].
  - destruct (format_row E columns r) as [p|e] eqn:Hp; [|discriminate].
    destruct (IH _ _ H) as (ps & -> & Hps).
    exists (p :: ps). split; [rewrite <- app_assoc; reflexivity|].
    constructor; assumption.
Qed.

Lemma format_rows_Forall2 columns rows ps : forall results,
  Forall2 (fun r p => format_row E columns r = Ok p) rows ps ->
  format_rows E columns rows results = Ok (results ++ ps)%list.
Proof.
  intros results H. revert results.
  induction H as [|r p rows ps Hp _ IH]; intros results; simpl.
  - rewrite app_nil_r. reflexivity.
  - rewrite Hp, IH, <- app_assoc. reflexivity.
Qed.

Lemma format_rows_total columns rows :
  (forall r c, r ∈ rows -> c ∈ columns -> is_Some (r !! c)) ->
  exists ps, Forall2 (fun r p => format_row E columns r = Ok p) rows ps.
Proof.
  induction rows as [|r rows IH]; intros Hall; [exists []; constructor|].
  destruct (format_row_total columns r) as [p Hp]; [intros c; apply Hall; left|].
  destruct IH as [ps Hps]; [intros r' c Hr'; apply Hall; right; exact Hr'|].
  exists (p :: ps). constructor; assumption.
Qed.

End Formatter.

(** C3: for a row that holds a value for every configured column, with
    [vals] the values in the order of the columns, the passage is the value
    itself when there is one column, and otherwise the string made of the
    lines "column: value", one per column in the configured order, joined
    by newlines. *)
Theorem format_row_passage
    (E : Externals) (columns : list string) (r : row) (vals : list value)
    (Hvals : Forall2 (fun c v => r !! c = Some v) columns vals) :
  format_row E columns r
  = Ok (match vals with
        | [v] => v
        | _ => VStr (String.concat nl
                       (zip_with (fun c v => c +:+ ": " +:+ py_str E v) columns vals))
        end).
Proof.
  unfold format_row.
  destruct Hvals as [|c v columns vals Hc Hrest].
  - reflexivity.
  - destruct Hrest as [|c' v' columns vals Hc' Hrest].
    + simpl. unfold getitem. rewrite Hc. reflexivity.
    + rewrite (row_strings_Forall2 E r (c :: c' :: columns) (v :: v' :: vals)).
      * reflexivity.
      * repeat constructor; assumption.
Qed.

(** One column gives the raw value, an integer staying an integer; two
    columns [text; id] give "text: first" and "id: 7" on two lines. *)
Lemma format_row_passage_witness :
  format_row Demo.world ["id"] {[ "text" := VStr "first"; "id" := VInt 7 ]} = Ok (VInt 7)
  /\ format_row Demo.world ["text"; "id"] {[ "text" := VStr "first"; "id" := VInt 7 ]}
     = Ok (VStr ("text: first" +:+ nl +:+ "id: 7")).
Proof.
  split.
  - apply (format_row_passage Demo.world ["id"] _ [VInt 7]).
    repeat constructor.
  - apply (format_row_passage Demo.world ["text"; "id"] _ [VStr "first"; VInt 7]).
    repeat constructor.
Defined.

(** ** From rows to the prediction *)

Section Forward.

Context (E : Externals).

(** [forward] past its guard: the embedding, then the query, then the loop. *)
Lemma forward_unfold q k_arg s :
  forward E (Some q) k_arg s =
  match get_embeddings E [q] s with
  | (Raise e, s1) => (Raise e, s1)
  | (Ok embeddings, s1) =>
      let o := self s1 in
      let sql := forward_sql E o embeddings (default (k (self s)) k_arg) in
      let s2 := {| self := o; proc := log_call (proc s1) (EvDbQuery sql) |} in
      match query (client o) sql with
      | Fails msg => (Raise (External msg), s2)
      | Answer rows =>
          match format_rows E (metadata_columns o) rows [] with
          | Raise e => (Raise e, s2)
          | Ok results =>
              (Ok {| passages := map (fun passage => {| long_text := passage |}) results |},
               s2)
          end
      end
  end.
Proof.
  unfold forward, forward_sql. unfold_monad.
  destruct k_arg as [kk|]; simpl;
    (destruct (get_embeddings E [q] s) as [[embeddings|e] s1]; simpl; [|reflexivity]);
    (destruct (query (client (self s1)) _) as [rows|msg]; simpl; [|reflexivity]);
    (destruct (format_rows E (metadata_columns (self s1)) rows []); reflexivity).
Qed.

End Forward.

(** C4: let the embedding of the query be obtained and let the database
    answer the statement of [forward] with [rows].  Then a prediction that
    [forward] returns has as many passages as there are rows, and its i-th
    passage is the formatted i-th row; and [forward] does return a prediction
    as soon as every row holds every configured column. *)
Theorem forward_one_passage_per_row
    (E : Externals) (q : string) (k_arg : option Z) (s s1 : state)
    (embeddings : list pyfloat) (rows : list row)
    (Hemb : get_embeddings E [q] s = (Ok embeddings, s1))
    (Hrows : query (client (self s1))
               (forward_sql E (self s1) embeddings (default (k (self s)) k_arg))
             = Answer rows) :
  (forall pred s',
      forward E (Some q) k_arg s = (Ok pred, s') ->
      length (passages pred) = length rows
      /\ forall i r, rows !! i = Some r ->
           exists p, passages pred !! i = Some p
                     /\ format_row E (metadata_columns (self s1)) r = Ok (long_text p))
  /\ ((forall r c, r ∈ rows -> c ∈ metadata_columns (self s1) -> is_Some (r !! c)) ->
      exists pred s', forward E (Some q) k_arg s = (Ok pred, s')).
Proof.
  rewrite forward_unfold, Hemb. cbv zeta. rewrite Hrows. split.
  - intros pred s' H.
    destruct (format_rows E (metadata_columns (self s1)) rows []) as [results|e] eqn:Hfmt;
      [|discriminate].
    inversion H; subst; clear H. simpl.
    destruct (format_rows_Ok E _ _ _ _ Hfmt) as (ps & -> & Hps). simpl.
    split.
    + rewrite length_map. symmetry. exact (Forall2_length _ _ _ Hps).
    + intros i r Hr.
      destruct (Forall2_lookup_l _ _ _ _ _ Hps Hr) as (p & Hp & Hfp).
      exists {| long_text := p |}. split; [|exact Hfp].
      rewrite list_lookup_fmap, Hp. reflexivity.
  - intros Hall.
    destruct (format_rows_total E _ _ Hall) as [ps Hps].
    rewrite (format_rows_Forall2 E _ _ _ [] Hps). eauto.
Qed.

(** Two rows come back for the query "hi", each with the configured column:
    [forward] returns, and its prediction has two passages. *)
Lemma forward_one_passage_per_row_witness :
  exists pred s',
    forward Demo.world (Some "hi") None Demo.remote_state = (Ok pred, s')
    /\ length (passages pred) = 2%nat.
Proof.
  destruct (forward_one_passage_per_row Demo.world "hi" None Demo.remote_state
              (snd (get_embeddings Demo.world ["hi"] Demo.remote_state))
              (Demo.vec 2) Demo.rows2 eq_refl eq_refl) as [Hshape Hret].
  destruct Hret as (pred & s' & Hfwd).
  - intros r c Hr Hc.
    apply list_elem_of_In in Hr. apply list_elem_of_In in Hc.
    simpl in Hr, Hc.
    destruct Hc as [<-|[]]. destruct Hr as [<-|[<-|[]]]; eexists; reflexivity.
  - exists pred, s'. split; [exact Hfwd|].
    exact (proj1 (Hshape pred s' Hfwd)).
Defined.

(** ** Construction and the local model *)

Section Setup.

Context (E : Externals).

(** [setup_local_model], outcome by outcome. *)
Lemma setup_local_model_unfold name s :
  setup_local_model E name s =
  if libs_installed E then
    let p1 := log_call (proc s) (EvLoadModel name) in
    match AutoModel_from_pretrained E name with
    | Fails msg =>
        (Raise (ValueError (Msg.load_failed (External msg))),
         {| self := self s; proc := p1 |})
    | Answer m =>
        let o1 := set_local_embed_model (Some m) (self s) in
        let p2 := log_call p1 (EvLoadTokenizer name) in
        match AutoTokenizer_from_pretrained E name with
        | Fails msg =>
            (Raise (ValueError (Msg.load_failed (External msg))),
             {| self := o1; proc := p2 |})
        | Answer t =>
            let d := selected_device E in
            let o2 := set_device (Some d)
                        (set_use_local_model true (set_local_tokenizer (Some t) o1)) in
            let p3 := log_call p2 (EvModelTo d) in
            match to_device_error E m d with
            | Some msg => (Raise (External msg), {| self := o2; proc := p3 |})
            | None =>
                (Ok tt,
                 {| self := set_local_embed_model (Some (moved_to d m)) o2; proc := p3 |})
            end
        end
    end
  else (Raise (ModuleNotFoundError Msg.libs_missing), s).
Proof.
  unfold setup_local_model, selected_device. unfold_monad.
  destruct (libs_installed E); simpl; [|reflexivity].
  destruct (AutoModel_from_pretrained E name) as [m|msg]; simpl; [|reflexivity].
  destruct (AutoTokenizer_from_pretrained E name) as [t|msg]; simpl; [|reflexivity].
  destruct (cuda_is_available E); simpl;
    [|destruct (mps_is_available E); simpl];
    (destruct (to_device_error E m _); reflexivity).
Qed.

(** No failure of [setup_local_model] is the error of the metadata guard. *)
Lemma setup_local_model_not_metadata_required name s :
  fst (setup_local_model E name s) <> Raise (ValueError Msg.metadata_required).
Proof.
  rewrite setup_local_model_unfold.
  destruct (libs_installed E); [|simpl; discriminate].
  destruct (AutoModel_from_pretrained E name) as [m|msg]; cbv zeta.
  - destruct (AutoTokenizer_from_pretrained E name) as [t|msg].
    + destruct (to_device_error E m _); simpl; discriminate.
    + simpl. intros H. inversion H.
  - simpl. intros H. inversion H.
Qed.

End Setup.




(** Outside the failures named in C8: when both loads succeed and the move
    to the device raises, the call raises with the flag already up, the
    encoder and the tokenizer both in place. *)
Example setup_local_model_move_fails :
  let out := setup_local_model Demo.world_move_fails "bert"
               {| self := Demo.fresh_rm; proc := Demo.p0 |} in
  fst out = Raise (External "CUDA out of memory")
  /\ use_local_model (self (snd out)) = true
  /\ is_Some (_local_embed_model (self (snd out)))
  /\ is_Some (_local_tokenizer (self (snd out))).
Proof. cbv zeta. repeat split; eexists; reflexivity. Qed.

(** The constructor past its guard: the local model is set up, or else the
    key goes to the environment, which refuses a value with a NUL. *)
Lemma init_unfold
    (E : Externals) (cl : Client) (tb db : string) (c : string) (cols : list string)
    (vc : string) (kk : Z) (key mdl lem : option string) (p : Process) :
  let o := {| client := cl; database := db; table := tb;
              metadata_columns := c :: cols; vector_column := vc; k := kk;
              openai_api_key := key; model := mdl; use_local_model := false;
              _local_embed_model := None; _local_tokenizer := None;
              device := None |} in
  __init__ E cl tb db (c :: cols) vc kk key mdl lem p =
  if truthy lem then
    match setup_local_model E (default "" lem) {| self := o; proc := p |} with
    | (Ok _, s) => (Ok (self s), proc s)
    | (Raise e, s) => (Raise e, proc s)
    end
  else if truthy key then
    if has_nul (default "" key) then (Raise (ValueError Msg.null_byte), p)
    else (Ok o, set_environ "OPENAI_API_KEY" (default "" key) p)
  else (Ok o, p).
Proof.
  cbv zeta. unfold __init__.
  destruct (truthy lem); [reflexivity|].
  destruct (truthy key); [|reflexivity].
  unfold environ_setitem. destruct (has_nul (default "" key)); reflexivity.
Qed.

(** C6: with an empty list of metadata columns the constructor raises
    "metadata_columns is required" and the process is as before, no library
    having been called; with a non-empty list the constructor returns an
    object whose [metadata_columns] is that list, unless it fails further
    on, which is not the error of the guard: inside [setup_local_model],
    which takes a [local_embed_model], or at the write of a key with an
    embedded NUL to the environment. *)
Theorem init_metadata_columns
    (E : Externals) (client : Client) (table database : string)
    (columns : list string) (vector_column : string) (k : Z)
    (openai_api_key openai_model local_embed_model : option string) (p : Process) :
  let out := __init__ E client table database columns vector_column k
               openai_api_key openai_model local_embed_model p in
  (columns = [] -> out = (Raise (ValueError Msg.metadata_required), p))
  /\ (columns <> [] ->
      match fst out with
      | Ok o => metadata_columns o = columns
      | Raise e =>
          e <> ValueError Msg.metadata_required
          /\ (truthy local_embed_model = true
              \/ (truthy local_embed_model = false
                  /\ truthy openai_api_key = true
                  /\ has_nul (default "" openai_api_key) = true
                  /\ e = ValueError Msg.null_byte))
      end).
Proof.
  cbv zeta. split.
  - intros ->. reflexivity.
  - intros Hne. destruct columns as [|c columns]; [congruence|].
    rewrite init_unfold. cbv zeta.
    destruct (truthy local_embed_model) eqn:Hlocal.
    + pose proof (setup_local_model_not_metadata_required E
                    (default "" local_embed_model)) as Hsetup.
      pose proof (setup_local_model_keeps_config E (default "" local_embed_model)) as Hkeep.
      match goal with
      | |- context [setup_local_model E ?n ?s0] =>
          specialize (Hsetup s0); specialize (Hkeep s0);
          destruct (setup_local_model E n s0) as [[u|e] s1]
      end; cbn [fst snd] in *.
      * destruct Hkeep as (_ & _ & _ & Hcols & _). exact Hcols.
      * split; [|left; reflexivity]. intros Heq. apply Hsetup. rewrite Heq. reflexivity.
    + destruct (truthy openai_api_key) eqn:Hkey; [|reflexivity].
      destruct (has_nul (default "" openai_api_key)) eqn:Hnul; [|reflexivity].
      cbn [fst]. split; [intros H; inversion H|].
      right. repeat split.
Qed.

(** An empty list is refused before anything is called; a list of two
    columns is stored as given. *)
Lemma init_metadata_columns_witness :
  __init__ Demo.world Demo.db "docs" "default" [] "vector" 3
    (Some "sk") (Some "text-embedding-3-small") None Demo.p0
  = (Raise (ValueError Msg.metadata_required), Demo.p0)
  /\ (metadata_columns <$>
        match fst (__init__ Demo.world Demo.db "docs" "default" ["text"; "id"] "vector" 3
                     (Some "sk") (Some "text-embedding-3-small") None Demo.p0) with
        | Ok o => Some o
        | Raise _ => None
        end) = Some ["text"; "id"].
Proof.
  split.
  - exact (proj1 (init_metadata_columns Demo.world Demo.db "docs" "default" [] "vector" 3
                    (Some "sk") (Some "text-embedding-3-small") None Demo.p0) eq_refl).
  - pose proof (proj2 (init_metadata_columns Demo.world Demo.db "docs" "default"
                         ["text"; "id"] "vector" 3
                         (Some "sk") (Some "text-embedding-3-small") None Demo.p0)) as H.
    cbv zeta in H. specialize (H ltac:(discriminate)).
    destruct (fst (__init__ _ _ _ _ _ _ _ _ _ _ _)) as [o|e].
    + simpl. f_equal. exact H.
    + destruct H as [_ [H|(_ & _ & H & _)]]; discriminate H.
Defined.

(** C9: the constructor called with a non-empty API key.  Without a
    [local_embed_model] (None or empty), every construction that returns an
    object has left the process with OPENAI_API_KEY set to the key and
    nothing else changed, and the constructor does return whenever the
    metadata columns are non-empty and the key holds no NUL; for a key with a
    NUL the call raises and the process is as before.  With a
    [local_embed_model] the environment is what it was, whether the local
    model loads or not. *)
Theorem init_environ
    (E : Externals) (client : Client) (table database : string)
    (columns : list string) (vector_column : string) (k : Z)
    (key : string) (openai_model local_embed_model : option string) (p : Process)
    (Hkey : key <> "") :
  let out := __init__ E client table database columns vector_column k
               (Some key) openai_model local_embed_model p in
  (truthy local_embed_model = false ->
     (forall o p', out = (Ok o, p') ->
        p' = set_environ "OPENAI_API_KEY" key p
        /\ environ p' !! "OPENAI_API_KEY" = Some key)
     /\ (columns <> [] -> has_nul key = false ->
         exists o, out = (Ok o, set_environ "OPENAI_API_KEY" key p))
     /\ (has_nul key = true -> (exists e, fst out = Raise e) /\ snd out = p))
  /\ (truthy local_embed_model = true -> environ (snd out) = environ p).
Proof.
  cbv zeta.
  assert (truthy (Some key) = true) as Htruthy.
  { simpl. destruct (String.eqb_spec key ""); [contradiction|reflexivity]. }
  destruct columns as [|c columns].
  { split; intros Hlocal.
    - split; [intros o p' H; discriminate H|].
      split; [congruence|]. intros _. split; [eexists|]; reflexivity.
    - reflexivity. }
  rewrite init_unfold. cbv zeta. split; intros Hlocal; rewrite Hlocal.
  - rewrite Htruthy. change (default "" (Some key)) with key.
    destruct (has_nul key) eqn:Hnul.
    + split; [intros o p' H; discriminate H|].
      split; [intros _ H; discriminate H|].
      intros _. split; [eexists|]; reflexivity.
    + split.
      * intros o p' H. inversion H; subst. split; [reflexivity|].
        apply lookup_insert_eq.
      * split; [eauto|intros H; discriminate H].
  - pose proof (setup_local_model_keeps_environ E (default "" local_embed_model)) as Hkeep.
    match goal with
    | |- context [setup_local_model E ?n ?s0] =>
        specialize (Hkeep s0); destruct (setup_local_model E n s0) as [[u|e] s1]
    end; exact Hkeep.
Qed.

(** The key "sk" alone lands in the environment; given together with the
    local model "bert" it does not. *)
Lemma init_environ_witness :
  environ (snd (__init__ Demo.world Demo.db "docs" "default" ["text"] "vector" 3
                  (Some "sk") (Some "text-embedding-3-small") None Demo.p0))
    !! "OPENAI_API_KEY" = Some "sk"
  /\ environ (snd (__init__ Demo.world Demo.db "docs" "default" ["text"] "vector" 3
                     (Some "sk") (Some "text-embedding-3-small") (Some "bert") Demo.p0))
     = environ Demo.p0.
Proof.
  split.
  - destruct (proj1 (init_environ Demo.world Demo.db "docs" "default" ["text"] "vector" 3
                       "sk" (Some "text-embedding-3-small") None Demo.p0
                       ltac:(discriminate)) eq_refl) as (Hwritten & Hreturns & _).
    destruct (Hreturns ltac:(discriminate) eq_refl) as [o Hout].
    rewrite Hout. exact (proj2 (Hwritten o _ Hout)).
  - apply (init_environ Demo.world Demo.db "docs" "default" ["text"] "vector" 3
             "sk" (Some "text-embedding-3-small") (Some "bert") Demo.p0);
      [discriminate|reflexivity].
Defined.

(** A key with an embedded NUL is refused by the environment: the
    constructor raises and nothing has been written. *)
Example init_key_with_nul :
  __init__ Demo.world Demo.db "docs" "default" ["text"] "vector" 3
    (Some (String "s" (String Ascii.zero "k"))) None None Demo.p0
  = (Raise (ValueError Msg.null_byte), Demo.p0).
Proof. reflexivity. Qed.

(** ** The query guard lets every string through *)

Lemma _get_embeddings_not_query_required (E : Externals) queries s :
  fst (_get_embeddings E queries s) <> Raise (ValueError Msg.query_required).
Proof.
  rewrite _get_embeddings_unfold.
  destruct (truthy (openai_api_key (self s)) && truthy (model (self s))).
  - apply _get_embeddings_from_openai_no_ValueError.
  - destruct (use_local_model (self s)).
    + apply _get_embedding_from_local_model_no_ValueError.
    + simpl. intros H. inversion H.
Qed.

Lemma get_embeddings_not_query_required (E : Externals) queries s :
  fst (get_embeddings E queries s) <> Raise (ValueError Msg.query_required).
Proof.
  unfold get_embeddings. destruct (cache_turn_on E);
    [|apply _get_embeddings_not_query_required].
  unfold CacheMemory_cache. unfold_monad. simpl.
  destruct (cache (proc s) !! queries) as [v|]; simpl; [discriminate|].
  pose proof (_get_embeddings_not_query_required E queries s) as H.
  destruct (_get_embeddings E queries s) as [[v|e] s1]; simpl in *; [discriminate|exact H].
Qed.

Lemma row_strings_not_ValueError (E : Externals) (r : row) columns msg :
  row_strings E r columns <> Raise (ValueError msg).
Proof.
  induction columns as [|c columns IH]; simpl; [discriminate|].
  unfold getitem. destruct (r !! c); [|discriminate].
  destruct (row_strings E r columns) as [l|e]; [discriminate|].
  intros H. apply IH. congruence.
Qed.

Lemma format_row_not_ValueError (E : Externals) columns (r : row) msg :
  format_row E columns r <> Raise (ValueError msg).
Proof.
  unfold format_row. destruct (length columns =? 1)%nat.
  - destruct columns as [|c columns]; [discriminate|].
    unfold getitem. destruct (r !! c); discriminate.
  - pose proof (row_strings_not_ValueError E r columns msg) as H.
    destruct (row_strings E r columns); [discriminate|].
    intros H'. apply H. congruence.
Qed.

Lemma format_rows_not_ValueError (E : Externals) columns rows msg : forall results,
  format_rows E columns rows results <> Raise (ValueError msg).
Proof.
  induction rows as [|r rows IH]; intros results; simpl; [discriminate|].
  pose proof (format_row_not_ValueError E columns r msg) as H.
  destruct (format_row E columns r) as [p|e]; [apply IH|].
  intros H'. apply H. congruence.
Qed.

(** C10: given a string, be it empty, [forward] does not raise "Query is
    required"; it asks [get_embeddings] for the embedding of that one string,
    fails with the error of that request if there is one, and otherwise sends
    its statement to the database. *)
Theorem forward_accepts_any_string
    (E : Externals) (q : string) (k_arg : option Z) (s : state) :
  fst (forward E (Some q) k_arg s) <> Raise (ValueError Msg.query_required)
  /\ (forall e s1,
         get_embeddings E [q] s = (Raise e, s1) ->
         forward E (Some q) k_arg s = (Raise e, s1))
  /\ (forall embeddings s1,
         get_embeddings E [q] s = (Ok embeddings, s1) ->
         calls (proc (snd (forward E (Some q) k_arg s)))
         = (calls (proc s1)
            ++ [EvDbQuery (forward_sql E (self s1) embeddings (default (k (self s)) k_arg))])%list).
Proof.
  rewrite forward_unfold.
  pose proof (get_embeddings_not_query_required E [q] s) as Hemb.
  destruct (get_embeddings E [q] s) as [[embeddings|e] s1]; cbv zeta.
  - split; [|split].
    + destruct (query (client (self s1)) _) as [rows|msg]; [|simpl; discriminate].
      pose proof (format_rows_not_ValueError E (metadata_columns (self s1)) rows
                    Msg.query_required []) as Hfmt.
      destruct (format_rows E (metadata_columns (self s1)) rows []); simpl in *;
        [discriminate|].
      intros H. apply Hfmt. congruence.
    + intros e s1' H. discriminate H.
    + intros embeddings' s1' H. inversion H; subst.
      destruct (query (client (self s1')) _) as [rows|msg]; [|reflexivity].
      destruct (format_rows E (metadata_columns (self s1')) rows []); reflexivity.
  - split; [simpl in *; intros H; apply Hemb; congruence|]. split.
    + intros e' s1' H. inversion H; subst. reflexivity.
    + intros embeddings s1' H. discriminate H.
Qed.

(** The empty string goes to the embedding service and then to the
    database. *)
Lemma forward_accepts_any_string_witness :
  calls (proc (snd (forward Demo.world (Some "") None Demo.remote_state)))
  = [EvOpenAIEmbed (Some "text-embedding-3-small") [""];
     EvDbQuery (forward_sql Demo.world Demo.remote_rm (Demo.vec 0) 3)].
Proof.
  exact (proj2 (proj2 (forward_accepts_any_string Demo.world "" None Demo.remote_state))
           (Demo.vec 0) (snd (get_embeddings Demo.world [""] Demo.remote_state)) eq_refl).
Defined.

(** ** The version check at import *)

Section VersionCheck.

Lemma pretty_N_char_digit (d : N) :
  (d < 10)%N -> digit_value (pretty_N_char d) = Some d.
Proof.
  intros Hd.
  assert (d = 0 \/ d = 1 \/ d = 2 \/ d = 3 \/ d = 4 \/ d = 5
          \/ d = 6 \/ d = 7 \/ d = 8 \/ d = 9)%N as H by lia.
  repeat (destruct H as [->|H]; [reflexivity|]). subst. reflexivity.
Qed.

(** A digit is neither whitespace, nor a sign, nor the separator. *)
Lemma digit_value_plain (c : ascii) (d : N) :
  digit_value c = Some d ->
  is_space c = false /\ c <> "+"%char /\ c <> "-"%char /\ Ascii.eqb c "." = false.
Proof.
  destruct c as [[] [] [] [] [] [] [] []]; vm_compute; intros H;
    try discriminate H; repeat split; discriminate.
Qed.

(** Reading back what [pretty_N_go] prints in front of [s]: the digits of
    [x] extend the number read so far. *)
Lemma int_digits_pretty_N_go (x : N) : forall s acc after,
  (0 < x)%N ->
  exists p, (x < p)%N
    /\ int_digits (pretty_N_go x s) acc after = int_digits s (acc * p + x)%N true.
Proof.
  induction (N.lt_wf_0 x) as [x _ IH]; intros s acc after Hx.
  rewrite pretty_N_go_step by exact Hx.
  pose proof (N.mod_lt x 10 ltac:(lia)) as Hmod.
  pose proof (N.div_mod x 10 ltac:(lia)) as Hdiv.
  destruct (N.eq_dec (x / 10)%N 0%N) as [Hz|Hnz].
  - rewrite Hz, pretty_N_go_0. simpl.
    rewrite (pretty_N_char_digit _ Hmod).
    exists 10%N. split; [lia|]. f_equal. lia.
  - destruct (IH (x / 10)%N ltac:(apply N.div_lt; lia)
                (String (pretty_N_char (x mod 10)%N) s) acc after ltac:(lia))
      as (p & Hp & ->).
    simpl. rewrite (pretty_N_char_digit _ Hmod).
    exists (10 * p)%N. split; [lia|]. f_equal. lia.
Qed.

Lemma pretty_N_go_head (x : N) : forall s,
  (0 < x)%N ->
  exists c d r, pretty_N_go x s = String c r /\ digit_value c = Some d.
Proof.
  induction (N.lt_wf_0 x) as [x _ IH]; intros s Hx.
  rewrite pretty_N_go_step by exact Hx.
  destruct (N.eq_dec (x / 10)%N 0%N) as [Hz|Hnz].
  - rewrite Hz, pretty_N_go_0. eexists _, _, _. split; [reflexivity|].
    apply pretty_N_char_digit. apply N.mod_lt. lia.
  - apply IH; [apply N.div_lt; lia|].
    apply N.neq_0_lt_0. exact Hnz.
Qed.

Lemma digits_only_pretty_N_go (x : N) : forall s,
  digits_only s = true -> digits_only (pretty_N_go x s) = true.
Proof.
  induction (N.lt_wf_0 x) as [x _ IH]; intros s Hs.
  destruct (N.eq_dec x 0%N) as [->|Hx]; [rewrite pretty_N_go_0; exact Hs|].
  rewrite pretty_N_go_step by lia.
  apply IH; [apply N.div_lt; lia|].
  simpl. rewrite pretty_N_char_digit; [exact Hs|apply N.mod_lt; lia].
Qed.

Lemma digits_only_pretty (n : N) : digits_only (pretty n) = true.
Proof.
  unfold pretty, pretty_N. destruct (decide (n = 0%N)); [reflexivity|].
  apply digits_only_pretty_N_go. reflexivity.
Qed.

(** [int(str(n)) == n] *)
Lemma py_int_pretty (n : N) : py_int (pretty n) = Some (Z.of_N n).
Proof.
  unfold pretty, pretty_N. destruct (decide (n = 0%N)) as [->|Hn]; [reflexivity|].
  destruct (pretty_N_go_head n "" ltac:(lia)) as (c & d & r & Hshape & Hc).
  destruct (digit_value_plain c d Hc) as (Hspace & Hplus & Hminus & _).
  destruct (int_digits_pretty_N_go n "" 0%N false ltac:(lia)) as (p & _ & Hread).
  assert (Z.of_N <$> int_digits (String c r) 0%N false = Some (Z.of_N n)) as Hgoal.
  { rewrite <- Hshape, Hread. reflexivity. }
  unfold py_int. rewrite Hshape. cbn [skip_spaces]. rewrite Hspace.
  destruct c as [[] [] [] [] [] [] [] []];
    first [exact Hgoal | exfalso; apply Hplus; reflexivity
          | exfalso; apply Hminus; reflexivity].
Qed.

Lemma py_split_digits (a r : string) :
  digits_only a = true ->
  py_split "." (a +:+ String "." r) = a :: py_split "." r.
Proof.
  induction a as [|c a IH]; intros Ha; simpl in *; [reflexivity|].
  destruct (digit_value c) as [d|] eqn:Hc; [|discriminate].
  destruct (digit_value_plain c d Hc) as (_ & _ & _ & ->).
  rewrite (IH Ha). reflexivity.
Qed.

Lemma py_split_digits_last (a : string) :
  digits_only a = true -> py_split "." a = [a].
Proof.
  induction a as [|c a IH]; intros Ha; simpl in *; [reflexivity|].
  destruct (digit_value c) as [d|] eqn:Hc; [|discriminate].
  destruct (digit_value_plain c d Hc) as (_ & _ & _ & ->).
  rewrite (IH Ha). reflexivity.
Qed.

Lemma py_split_length (sep : ascii) (s : string) :
  length (py_split sep s) = S (count_char sep s).
Proof.
  induction s as [|c s IH]; simpl; [reflexivity|].
  destruct (Ascii.eqb c sep); simpl; [rewrite IH; reflexivity|].
  destruct (py_split sep s) as [|h t]; simpl in *; [discriminate|exact IH].
Qed.

End VersionCheck.

(** X1: a version written as three plain decimal numbers [a.b.c] passes the
    import-time check exactly when [a >= 1] and [b >= 16]: the two
    comparisons are made component by component, so the patch number plays
    no part and a higher major number does not make up for a minor number
    below 16. *)
Theorem openai_version_plain (a b c : N)
    (Ha : (String.length (pretty a) <= 4300)%nat)
    (Hb : (String.length (pretty b) <= 4300)%nat)
    (Hc : (String.length (pretty c) <= 4300)%nat) :
  OPENAI_VERSION_COMPATIBLE (pretty a +:+ "." +:+ pretty b +:+ "." +:+ pretty c)
  = ((1 <=? a)%N && (16 <=? b)%N).
Proof.
  unfold OPENAI_VERSION_COMPATIBLE.
  change ("." +:+ pretty b +:+ "." +:+ pretty c)
    with (String "." (pretty b +:+ String "." (pretty c))).
  rewrite (py_split_digits _ _ (digits_only_pretty a)).
  rewrite (py_split_digits _ _ (digits_only_pretty b)).
  rewrite (py_split_digits_last _ (digits_only_pretty c)).
  rewrite !py_int_pretty. cbv beta iota.
  clear Ha Hb Hc. f_equal.
  - destruct (N.leb_spec 1 a), (Z.leb_spec 1 (Z.of_N a)); try reflexivity; lia.
  - destruct (N.leb_spec 16 b), (Z.leb_spec 16 (Z.of_N b)); try reflexivity; lia.
Qed.

(** 1.16.0 is let in, 1.15.9 and 2.0.0 are not. *)
Lemma openai_version_plain_witness :
  OPENAI_VERSION_COMPATIBLE "1.16.0" = true
  /\ OPENAI_VERSION_COMPATIBLE "1.15.9" = false
  /\ OPENAI_VERSION_COMPATIBLE "2.0.0" = false.
Proof.
  split; [|split].
  - apply (openai_version_plain 1 16 0); vm_compute; lia.
  - apply (openai_version_plain 1 15 9); vm_compute; lia.
  - apply (openai_version_plain 2 0 0); vm_compute; lia.
Defined.

(** X2: a version that passes the check has exactly two dots; its three
    components all read as integers, the first at least 1 and the second at
    least 16. *)
Theorem openai_version_three_components (version : string)
    (Hok : OPENAI_VERSION_COMPATIBLE version = true) :
  count_char "." version = 2%nat
  /\ exists a b c major minor,
       py_split "." version = [a; b; c]
       /\ py_int a = Some major /\ py_int b = Some minor /\ is_Some (py_int c)
       /\ 1 <= major /\ 16 <= minor.
Proof.
  unfold OPENAI_VERSION_COMPATIBLE in Hok.
  pose proof (py_split_length "." version) as Hlen.
  destruct (py_split "." version) as [|a [|b [|c [|d l]]]]; try discriminate Hok.
  split; [simpl in Hlen; lia|].
  destruct (py_int a) as [major|] eqn:Hmaj; [|discriminate Hok].
  destruct (py_int b) as [minor|] eqn:Hmin; [|discriminate Hok].
  destruct (py_int c) as [patch|] eqn:Hpatch; [|discriminate Hok].
  apply andb_prop in Hok as [Hmajor Hminor].
  apply Z.leb_le in Hmajor, Hminor.
  exists a, b, c, major, minor.
  split; [reflexivity|]. split; [exact Hmaj|]. split; [exact Hmin|].
  split; [exists patch; exact Hpatch|]. split; assumption.
Qed.

Lemma openai_version_three_components_witness :
  count_char "." "1.30.1" = 2%nat.
Proof.
  exact (proj1 (openai_version_three_components "1.30.1" eq_refl)).
Defined.

(** ** More on [setup_local_model] *)

(** X3: the three ways [setup_local_model] fails.  It raises the
    ModuleNotFoundError exactly for missing libraries, and then changes
    nothing; a failed load of the encoder or of the tokenizer comes out as a
    ValueError whose message ends with the text of the library's error; an
    error of the move to the device comes out as it is.  No other exception
    leaves the function. *)
Theorem setup_local_model_errors
    (E : Externals) (name : string) (s : state) (e : exn)
    (Hraise : fst (setup_local_model E name s) = Raise e) :
  (e = ModuleNotFoundError Msg.libs_missing
   /\ libs_installed E = false /\ snd (setup_local_model E name s) = s)
  \/ (exists msg,
        e = ValueError ("Failed to load model or tokenizer. Error: " +:+ msg)
        /\ libs_installed E = true
        /\ (AutoModel_from_pretrained E name = Fails msg
            \/ (is_Answer (AutoModel_from_pretrained E name)
                /\ AutoTokenizer_from_pretrained E name = Fails msg)))
  \/ (exists msg m,
        e = External msg
        /\ libs_installed E = true
        /\ AutoModel_from_pretrained E name = Answer m
        /\ is_Answer (AutoTokenizer_from_pretrained E name)
        /\ to_device_error E m (selected_device E) = Some msg).
Proof.
  revert Hraise. rewrite setup_local_model_unfold.
  destruct (libs_installed E).
  2:{ cbn [fst snd]. intros H. inversion H. left. auto. }
  destruct (AutoModel_from_pretrained E name) as [m|msg]; cbv zeta.
  2:{ cbn [fst]. intros H. inversion H. right. left. exists msg. auto. }
  destruct (AutoTokenizer_from_pretrained E name) as [t|msg].
  2:{ cbn [fst]. intros H. inversion H. right. left. exists msg.
      split; [reflexivity|]. split; [reflexivity|]. right. split; [exact I|reflexivity]. }
  destruct (to_device_error E m (selected_device E)) as [msg|] eqn:Hmove; cbn [fst].
  - intros H. inversion H. right. right. exists msg, m.
    repeat split; auto.
  - discriminate.
Qed.

(** The tokenizer that does not load: a ValueError carrying the library's
    message. *)
Lemma setup_local_model_errors_witness :
  fst (setup_local_model Demo.world_no_tokenizer "bert" DemoExtra.fresh_state)
  = Raise (ValueError "Failed to load model or tokenizer. Error: not a valid model identifier")
  /\ (exists e,
        fst (setup_local_model Demo.world_no_tokenizer "bert" DemoExtra.fresh_state) = Raise e
        /\ e <> ModuleNotFoundError Msg.libs_missing).
Proof.
  split; [reflexivity|].
  eexists. split; [reflexivity|].
  destruct (setup_local_model_errors Demo.world_no_tokenizer "bert" DemoExtra.fresh_state
              _ eq_refl) as [(_ & Hlibs & _)|[(msg & -> & _)|(msg & m & -> & _)]].
  - discriminate Hlibs.
  - discriminate.
  - discriminate.
Defined.



(** X5: when the libraries are missing or the encoder does not load, the
    object is exactly what it was and the tokenizer has not been asked for:
    the only library call, if any, is the encoder load. *)
Theorem setup_local_model_early_failure
    (E : Externals) (name : string) (s : state)
    (Hfail : libs_installed E = false
             \/ exists msg, AutoModel_from_pretrained E name = Fails msg) :
  self (snd (setup_local_model E name s)) = self s
  /\ calls (proc (snd (setup_local_model E name s)))
     = (calls (proc s) ++ (if libs_installed E then [EvLoadModel name] else []))%list
  /\ exists e, fst (setup_local_model E name s) = Raise e.
Proof.
  rewrite setup_local_model_unfold.
  destruct (libs_installed E) eqn:Hlibs.
  - destruct Hfail as [?|[msg Hmsg]]; [discriminate|].
    rewrite Hmsg. cbn. eauto.
  - cbn. rewrite app_nil_r. eauto.
Qed.

Lemma setup_local_model_early_failure_witness :
  self (snd (setup_local_model DemoExtra.world_no_encoder "bert" DemoExtra.fresh_state))
  = Demo.fresh_rm
  /\ calls (proc (snd (setup_local_model DemoExtra.world_no_encoder "bert"
                         DemoExtra.fresh_state)))
     = [EvLoadModel "bert"].
Proof.
  destruct (setup_local_model_early_failure DemoExtra.world_no_encoder "bert"
              DemoExtra.fresh_state) as (Hself & Hcalls & _).
  - right. eexists. reflexivity.
  - split; [exact Hself|exact Hcalls].
Defined.

(** X6: the two loads are not undone together.  When the encoder loads and
    the tokenizer does not, the call raises and yet the encoder attribute has
    been replaced; tokenizer, device and flag are those of before.  On an
    adapter that was already set up, this leaves the new encoder next to the
    old tokenizer with [use_local_model] still True. *)
Theorem setup_local_model_tokenizer_failure
    (E : Externals) (name : string) (s : state) (m : LocalModel) (msg : string)
    (Hlibs : libs_installed E = true)
    (Hmodel : AutoModel_from_pretrained E name = Answer m)
    (Htok : AutoTokenizer_from_pretrained E name = Fails msg) :
  fst (setup_local_model E name s)
  = Raise (ValueError ("Failed to load model or tokenizer. Error: " +:+ msg))
  /\ self (snd (setup_local_model E name s)) = set_local_embed_model (Some m) (self s)
  /\ _local_tokenizer (self (snd (setup_local_model E name s))) = _local_tokenizer (self s)
  /\ use_local_model (self (snd (setup_local_model E name s))) = use_local_model (self s).
Proof.
  rewrite setup_local_model_unfold, Hlibs, Hmodel. cbv zeta. rewrite Htok.
  repeat split.
Qed.

(** An adapter running "bert" is asked to switch to "e5", whose tokenizer is
    missing: it keeps the flag and the "bert" tokenizer, with the "e5"
    encoder. *)
Lemma setup_local_model_tokenizer_failure_witness :
  use_local_model
    (self (snd (setup_local_model Demo.world_no_tokenizer "e5" Demo.local_state))) = true
  /\ (lm_name <$> _local_embed_model
        (self (snd (setup_local_model Demo.world_no_tokenizer "e5" Demo.local_state))))
     = Some "e5"
  /\ (tok_name <$> _local_tokenizer
        (self (snd (setup_local_model Demo.world_no_tokenizer "e5" Demo.local_state))))
     = Some "bert".
Proof.
  destruct (setup_local_model_tokenizer_failure Demo.world_no_tokenizer "e5"
              Demo.local_state _ _ eq_refl eq_refl eq_refl)
    as (_ & Hself & Htok & Hflag).
  rewrite Hflag, Htok, Hself. repeat split.
Defined.

(** ** More on the constructor *)

(** What a returned object holds of the arguments. *)
Lemma init_Ok_config
    (E : Externals) (cl : Client) (tb db : string) (cols : list string)
    (vc : string) (kk : Z) (key mdl lem : option string) (p p' : Process)
    (o : MyScaleRM) :
  __init__ E cl tb db cols vc kk key mdl lem p = (Ok o, p') ->
  client o = cl /\ database o = db /\ table o = tb
  /\ metadata_columns o = cols /\ vector_column o = vc /\ k o = kk
  /\ openai_api_key o = key /\ model o = mdl.
Proof.
  intros Hinit. destruct cols as [|c cols]; [discriminate Hinit|].
  rewrite init_unfold in Hinit. cbv zeta in Hinit.
  destruct (truthy lem) eqn:Hlem.
  - pose proof (setup_local_model_keeps_config E (default "" lem)) as Hkeep.
    match type of Hinit with
    | context [setup_local_model E ?n ?s0] =>
        specialize (Hkeep s0);
        destruct (setup_local_model E n s0) as [[u|e] s1] eqn:Hsetup
    end; [|discriminate Hinit].
    inversion Hinit; subst; clear Hinit.
    destruct Hkeep as (?&?&?&?&?&?&?&?). cbn in *.
    repeat (split; [assumption|]). assumption.
  - destruct (truthy key); [destruct (has_nul (default "" key)); [discriminate Hinit|]|]; 
      inversion Hinit; subst; cbn; repeat split.
Qed.

Lemma init_Ok_flag
    (E : Externals) (cl : Client) (tb db : string) (cols : list string)
    (vc : string) (kk : Z) (key mdl lem : option string) (p p' : Process)
    (o : MyScaleRM) :
  __init__ E cl tb db cols vc kk key mdl lem p = (Ok o, p') ->
  use_local_model o = truthy lem.
Proof.
  intros Hinit. destruct cols as [|c cols]; [discriminate Hinit|].
  rewrite init_unfold in Hinit. cbv zeta in Hinit.
  destruct (truthy lem) eqn:Hlem.
  - match type of Hinit with
    | context [setup_local_model E ?n ?s0] =>
        pose proof (setup_local_model_unfold E n s0) as Hrun;
        destruct (setup_local_model E n s0) as [[u|e] s1] eqn:Hsetup
    end; [|discriminate Hinit].
    inversion Hinit; subst; clear Hinit.
    destruct (libs_installed E); [|discriminate Hrun].
    destruct (AutoModel_from_pretrained E _) as [m|msg]; [|discriminate Hrun].
    cbv zeta in Hrun.
    destruct (AutoTokenizer_from_pretrained E _) as [t|msg]; [|discriminate Hrun].
    destruct (to_device_error E m _); [discriminate Hrun|].
    inversion Hrun; subst. reflexivity.
  - destruct (truthy key); [destruct (has_nul (default "" key)); [discriminate Hinit|]|]; 
      inversion Hinit; subst; reflexivity.
Qed.

(** X7: the object a successful construction returns holds every argument
    as given, and its flag [use_local_model] tells whether a
    [local_embed_model] was named; without one the local-model attributes do
    not exist and no library has been called. *)
Theorem init_stores_arguments
    (E : Externals) (cl : Client) (tb db : string) (cols : list string)
    (vc : string) (kk : Z) (key mdl lem : option string) (p p' : Process)
    (o : MyScaleRM)
    (Hinit : __init__ E cl tb db cols vc kk key mdl lem p = (Ok o, p')) :
  client o = cl /\ database o = db /\ table o = tb
  /\ metadata_columns o = cols /\ vector_column o = vc /\ k o = kk
  /\ openai_api_key o = key /\ model o = mdl
  /\ use_local_model o = truthy lem
  /\ (truthy lem = false ->
      _local_embed_model o = None /\ _local_tokenizer o = None /\ device o = None
      /\ calls p' = calls p).
Proof.
  destruct (init_Ok_config _ _ _ _ _ _ _ _ _ _ _ _ _ Hinit) as (?&?&?&?&?&?&?&?).
  pose proof (init_Ok_flag _ _ _ _ _ _ _ _ _ _ _ _ _ Hinit) as Hflag.
  repeat (split; [assumption|]).
  intros Hlem. destruct cols as [|c cols]; [discriminate Hinit|].
  rewrite init_unfold in Hinit. cbv zeta in Hinit. rewrite Hlem in Hinit.
  destruct (truthy key); [destruct (has_nul (default "" key)); [discriminate Hinit|]|]; 
    inversion Hinit; subst; cbn; repeat split.
Qed.

Lemma init_stores_arguments_witness :
  match fst (__init__ Demo.world Demo.db "docs" "default" ["text"; "id"] "vector" 5
               None None (Some "bert") Demo.p0) with
  | Ok o => table o = "docs" /\ k o = 5 /\ use_local_model o = true
  | Raise _ => False
  end.
Proof.
  destruct (__init__ Demo.world Demo.db "docs" "default" ["text"; "id"] "vector" 5
              None None (Some "bert") Demo.p0) as [[o|e] p'] eqn:Hinit.
  - destruct (init_stores_arguments _ _ _ _ _ _ _ _ _ _ _ _ _ Hinit)
      as (_ & _ & Htable & _ & _ & Hk & _ & _ & Hflag & _).
    cbn. auto.
  - vm_compute in Hinit. discriminate Hinit.
Defined.

(** X8: a construction that names neither a local model nor both an API key
    and an OpenAI model, with non-empty metadata columns and no NUL in the
    key if there is one, succeeds all the same; the object it returns fails
    every retrieval with "No valid method for obtaining embeddings is
    configured." before any library or database call, unless the embedding
    of the query is already in the cache. *)
Theorem init_without_embedding_source
    (E : Externals) (cl : Client) (tb db : string) (cols : list string)
    (vc : string) (kk : Z) (key mdl lem : option string) (p : Process)
    (Hcols : cols <> [])
    (Hlem : truthy lem = false)
    (Hnul : has_nul (default "" key) = false)
    (Hremote : truthy key && truthy mdl = false) :
  exists o p',
    __init__ E cl tb db cols vc kk key mdl lem p = (Ok o, p')
    /\ forall q k_arg p'',
         cache_turn_on E = false \/ cache p'' !! [q] = None ->
         forward E (Some q) k_arg {| self := o; proc := p'' |}
         = (Raise (ValueError Msg.no_embedding_source), {| self := o; proc := p'' |}).
Proof.
  destruct cols as [|c cols]; [congruence|].
  destruct (__init__ E cl tb db (c :: cols) vc kk key mdl lem p) as [r p'] eqn:Hinit.
  assert (exists o, r = Ok o) as [o ->].
  { rewrite init_unfold in Hinit. cbv zeta in Hinit. rewrite Hlem, Hnul in Hinit.
    destruct (truthy key); inversion Hinit; eauto. }
  exists o, p'. split; [reflexivity|].
  destruct (init_Ok_config _ _ _ _ _ _ _ _ _ _ _ _ _ Hinit) as (_&_&_&_&_&_&Hkey&Hmdl).
  pose proof (init_Ok_flag _ _ _ _ _ _ _ _ _ _ _ _ _ Hinit) as Hflag.
  rewrite Hlem in Hflag.
  intros q k_arg p'' Hcache.
  assert (_get_embeddings E [q] {| self := o; proc := p'' |}
          = (Raise (ValueError Msg.no_embedding_source), {| self := o; proc := p'' |}))
    as Hrun.
  { rewrite _get_embeddings_unfold. cbn [self]. rewrite Hkey, Hmdl, Hremote, Hflag.
    reflexivity. }
  rewrite forward_unfold. unfold get_embeddings.
  destruct (cache_turn_on E).
  - destruct Hcache as [?|Hmiss]; [discriminate|].
    unfold CacheMemory_cache. unfold_monad. cbn [proc]. rewrite Hmiss, Hrun.
    reflexivity.
  - rewrite Hrun. reflexivity.
Qed.

(** A key without a model name: the adapter is built, writes the key to the
    environment, and cannot embed. *)
Lemma init_without_embedding_source_witness :
  exists o p',
    __init__ Demo.world Demo.db "docs" "default" ["text"] "vector" 3
      (Some "sk") None None Demo.p0 = (Ok o, p')
    /\ fst (forward Demo.world (Some "hi") None {| self := o; proc := p' |})
       = Raise (ValueError Msg.no_embedding_source).
Proof.
  destruct (init_without_embedding_source Demo.world Demo.db "docs" "default" ["text"]
              "vector" 3 (Some "sk") None None Demo.p0)
    as (o & p' & Hinit & Hfwd); [discriminate|reflexivity|reflexivity|reflexivity|].
  exists o, p'. split; [exact Hinit|].
  rewrite (Hfwd "hi" None p' (or_introl eq_refl)). reflexivity.
Defined.

(** X9: a construction given an API key, an OpenAI model and a local model
    loads the local model and raises the flag, does not write the key to the
    environment, and the object it returns sends every batch to the remote
    service: the request is the one library call, and the object, its loaded
    encoder included, is left as it is. *)
Theorem init_remote_over_local
    (E : Externals) (cl : Client) (tb db : string) (cols : list string)
    (vc : string) (kk : Z) (key mdl lem : option string) (p p' : Process)
    (o : MyScaleRM)
    (Hinit : __init__ E cl tb db cols vc kk key mdl lem p = (Ok o, p'))
    (Hkey : truthy key = true) (Hmdl : truthy mdl = true) (Hlem : truthy lem = true) :
  use_local_model o = true
  /\ environ p' = environ p
  /\ forall queries p'',
       self (snd (_get_embeddings E queries {| self := o; proc := p'' |})) = o
       /\ calls (proc (snd (_get_embeddings E queries {| self := o; proc := p'' |})))
          = (calls p'' ++ [EvOpenAIEmbed mdl queries])%list.
Proof.
  destruct (init_Ok_config _ _ _ _ _ _ _ _ _ _ _ _ _ Hinit) as (_&_&_&_&_&_&Hk&Hm).
  pose proof (init_Ok_flag _ _ _ _ _ _ _ _ _ _ _ _ _ Hinit) as Hflag.
  rewrite Hlem in Hflag. split; [exact Hflag|]. split.
  - destruct cols as [|c cols]; [discriminate Hinit|].
    rewrite init_unfold in Hinit. cbv zeta in Hinit. rewrite Hlem in Hinit.
    pose proof (setup_local_model_keeps_environ E (default "" lem)) as Hkeep.
    match type of Hinit with
    | context [setup_local_model E ?n ?s0] =>
        specialize (Hkeep s0); destruct (setup_local_model E n s0) as [[u|e] s1]
    end; inversion Hinit; subst. exact Hkeep.
  - intros queries p''. rewrite _get_embeddings_unfold. cbn [self].
    rewrite Hk, Hm, Hkey, Hmdl. cbn [andb].
    unfold _get_embeddings_from_openai. unfold_monad. cbn.
    rewrite Hm.
    destruct (openai_embeddings_create E _ _ _) as [[|emb data]|err]; split; reflexivity.
Qed.

Lemma init_remote_over_local_witness :
  exists o p',
    __init__ Demo.world Demo.db "docs" "default" ["text"] "vector" 3
      (Some "sk") (Some "text-embedding-3-small") (Some "bert") Demo.p0 = (Ok o, p')
    /\ use_local_model o = true
    /\ calls (proc (snd (_get_embeddings Demo.world ["hi"] {| self := o; proc := Demo.p0 |})))
       = [EvOpenAIEmbed (Some "text-embedding-3-small") ["hi"]].
Proof.
  destruct (__init__ Demo.world Demo.db "docs" "default" ["text"] "vector" 3
              (Some "sk") (Some "text-embedding-3-small") (Some "bert") Demo.p0)
    as [[o|e] p'] eqn:Hinit; [|vm_compute in Hinit; discriminate Hinit].
  destruct (init_remote_over_local _ _ _ _ _ _ _ _ _ _ _ _ _ Hinit eq_refl eq_refl eq_refl)
    as (Hflag & _ & Hcalls).
  exists o, p'. split; [reflexivity|]. split; [exact Hflag|].
  exact (proj2 (Hcalls ["hi"] Demo.p0)).
Defined.

(** ** More on the two embedding functions *)

(** The batch ["a"; "bb"], answered with two vectors by the remote service
    and by the local encoder: the first vector comes back. *)
Lemma _get_embeddings_from_openai_first_witness :
  fst (_get_embeddings_from_openai Demo.world ["a"; "bb"] Demo.remote_state)
  = Ok (Demo.vec 1).
Proof.
  exact (_get_embeddings_from_openai_first Demo.world ["a"; "bb"] Demo.remote_state
           [Demo.vec 1; Demo.vec 2] eq_refl).
Defined.

Lemma _get_embedding_from_local_model_first_witness :
  fst (_get_embedding_from_local_model Demo.world ["a"; "bb"] Demo.local_state)
  = Ok (Demo.vec 1).
Proof.
  exact (_get_embedding_from_local_model_first Demo.world ["a"; "bb"] Demo.local_state
           _ _ _ _ [Demo.vec 1; Demo.vec 2] eq_refl eq_refl eq_refl eq_refl eq_refl).
Defined.

(** X12: one call of [_get_embeddings_from_openai] is one request to the
    service, whatever comes back: the final state is the initial one with
    that request added to the trace, and an error of the service is raised
    as it is, without a second attempt. *)
Theorem _get_embeddings_from_openai_effect
    (E : Externals) (queries : list string) (s : state) :
  snd (_get_embeddings_from_openai E queries s)
  = {| self := self s;
       proc := log_call (proc s) (EvOpenAIEmbed (model (self s)) queries) |}
  /\ forall msg,
       openai_embeddings_create E (environ (proc s) !! "OPENAI_API_KEY")
         (model (self s)) queries = Fails msg ->
       fst (_get_embeddings_from_openai E queries s) = Raise (External msg).
Proof.
  unfold _get_embeddings_from_openai. unfold_monad. cbn.
  destruct (openai_embeddings_create E _ _ _) as [[|emb data]|err];
    (split; [reflexivity|]); intros msg H; inversion H; reflexivity.
Qed.

Lemma _get_embeddings_from_openai_effect_witness :
  fst (_get_embeddings_from_openai DemoExtra.world_rate_limited ["hi"] Demo.remote_state)
  = Raise (External "Rate limit reached").
Proof.
  exact (proj2 (_get_embeddings_from_openai_effect DemoExtra.world_rate_limited ["hi"]
                  Demo.remote_state) _ eq_refl).
Defined.

(** X13: [_get_embedding_from_local_model] first imports torch: without
    torch it raises ModuleNotFoundError and the state is untouched.  With
    torch, on an object without the encoder attribute it raises
    AttributeError, again with the state untouched; on an object with it,
    whether the call returns or raises, the one change to the object is that
    the encoder is in evaluation mode. *)
Theorem _get_embedding_from_local_model_effect
    (E : Externals) (query : list string) (s : state) :
  if torch_installed E then
    match _local_embed_model (self s) with
    | None =>
        _get_embedding_from_local_model E query s
        = (Raise (AttributeError "_local_embed_model"), s)
    | Some m =>
        self (snd (_get_embedding_from_local_model E query s))
        = set_local_embed_model (Some (eval_mode m)) (self s)
    end
  else
    _get_embedding_from_local_model E query s
    = (Raise (ModuleNotFoundError Msg.no_torch), s).
Proof.
  unfold _get_embedding_from_local_model. unfold_monad. cbn.
  destruct (torch_installed E); [|reflexivity]. cbn.
  destruct (_local_embed_model (self s)) as [m|]; [|reflexivity]. cbn.
  destruct (_local_tokenizer (self s)) as [tok|]; [|reflexivity]. cbn.
  destruct (tokenize E tok query) as [inputs|err]; [|reflexivity]. cbn.
  destruct (device (self s)) as [d|]; [|reflexivity]. cbn.
  destruct (local_pooled_output E _ d inputs) as [[|emb pooled]|err]; reflexivity.
Qed.

(** An adapter left with its flag up in a process where torch cannot be
    imported: the import fails first, the loaded encoder is not touched. *)
Example _get_embedding_from_local_model_no_torch :
  _get_embedding_from_local_model DemoExtra.world_no_torch ["hi"] Demo.local_state
  = (Raise (ModuleNotFoundError "No module named 'torch'"), Demo.local_state).
Proof. reflexivity. Qed.

(** ** More on [forward] *)

Section ForwardErrors.

Context (E : Externals).

Lemma row_strings_missing (r : row) (c : string) (post : list string) :
  forall pre,
    (forall c', c' ∈ pre -> is_Some (r !! c')) ->
    r !! c = None ->
    row_strings E r (pre ++ c :: post)%list = Raise (KeyError c).
Proof.
  induction pre as [|c0 pre IH]; intros Hpre Hc; simpl.
  - unfold getitem. rewrite Hc. reflexivity.
  - destruct (Hpre c0) as [v Hv]; [left|].
    unfold getitem. rewrite Hv.
    rewrite IH; [reflexivity| |exact Hc].
    intros c' Hc'. apply Hpre. right. exact Hc'.
Qed.

Lemma format_row_missing (r : row) (c : string) (pre post : list string) :
  (forall c', c' ∈ pre -> is_Some (r !! c')) ->
  r !! c = None ->
  format_row E (pre ++ c :: post)%list r = Raise (KeyError c).
Proof.
  intros Hpre Hc. unfold format_row.
  destruct (length (pre ++ c :: post) =? 1)%nat eqn:Hlen.
  - destruct pre as [|c0 [|c1 pre]]; simpl in *.
    + unfold getitem. rewrite Hc. reflexivity.
    + discriminate Hlen.
    + discriminate Hlen.
  - rewrite (row_strings_missing r c post pre Hpre Hc). reflexivity.
Qed.

Lemma format_rows_first_failure columns good ps r rest e : forall results,
  Forall2 (fun r p => format_row E columns r = Ok p) good ps ->
  format_row E columns r = Raise e ->
  format_rows E columns (good ++ r :: rest)%list results = Raise e.
Proof.
  intros results H. revert results.
  induction H as [|r0 p good ps Hp _ IH]; intros results Hr; simpl.
  - rewrite Hr. reflexivity.
  - rewrite Hp. apply IH. exact Hr.
Qed.

End ForwardErrors.

(** X14: no partial results.  Once the embedding is there, a failure of the
    database is raised as it is; and if some returned row lacks one of the
    configured columns, [forward] raises KeyError for the first such column
    of the first such row and returns no prediction, the rows before it
    notwithstanding. *)
Theorem forward_all_or_nothing
    (E : Externals) (q : string) (k_arg : option Z) (s s1 : state)
    (embeddings : list pyfloat)
    (Hemb : get_embeddings E [q] s = (Ok embeddings, s1)) :
  let answer := query (client (self s1))
                  (forward_sql E (self s1) embeddings (default (k (self s)) k_arg)) in
  (forall msg, answer = Fails msg ->
     fst (forward E (Some q) k_arg s) = Raise (External msg))
  /\ (forall (good : list row) (r : row) (rest : list row)
             (pre : list string) (c : string) (post : list string),
        answer = Answer (good ++ r :: rest)%list ->
        (forall r' c', r' ∈ good -> c' ∈ metadata_columns (self s1) -> is_Some (r' !! c')) ->
        metadata_columns (self s1) = (pre ++ c :: post)%list ->
        (forall c', c' ∈ pre -> is_Some (r !! c')) ->
        r !! c = None ->
        fst (forward E (Some q) k_arg s) = Raise (KeyError c)).
Proof.
  cbv zeta. rewrite forward_unfold, Hemb. cbv zeta. split.
  - intros msg ->. reflexivity.
  - intros good r rest pre c post -> Hgood Hcols Hpre Hc.
    destruct (format_rows_total E _ _ Hgood) as [ps Hps].
    rewrite (format_rows_first_failure E _ good ps r rest (KeyError c) [] Hps).
    + reflexivity.
    + rewrite Hcols. apply format_row_missing; assumption.
Qed.

(** The rows have no "title": KeyError; the database is down: its error. *)
Lemma forward_all_or_nothing_witness :
  fst (forward Demo.world (Some "hi") None DemoExtra.title_state) = Raise (KeyError "title")
  /\ fst (forward Demo.world (Some "hi") None DemoExtra.down_state)
     = Raise (External "connection refused").
Proof.
  split.
  - apply (proj2 (forward_all_or_nothing Demo.world "hi" None DemoExtra.title_state
                    (snd (get_embeddings Demo.world ["hi"] DemoExtra.title_state))
                    (Demo.vec 2) eq_refl)
             [] _ _ ["text"] "title" [] eq_refl).
    + intros r' c' Hr'. apply list_elem_of_In in Hr'. destruct Hr'.
    + reflexivity.
    + intros c' Hc'. apply list_elem_of_In in Hc'. simpl in Hc'.
      destruct Hc' as [<-|[]]. eexists. reflexivity.
    + reflexivity.
  - apply (proj1 (forward_all_or_nothing Demo.world "hi" None DemoExtra.down_state
                    (snd (get_embeddings Demo.world ["hi"] DemoExtra.down_state))
                    (Demo.vec 2) eq_refl)).
    reflexivity.
Defined.

Lemma get_embeddings_keeps_environ (E : Externals) queries :
  keeps environ_kept (get_embeddings E queries).
Proof.
  unfold get_embeddings, CacheMemory_cache, _get_embeddings,
    _get_embeddings_from_openai, _get_embedding_from_local_model.
  repeat keeps_step; reflexivity.
Qed.

(** X15: [forward] reads the environment and never writes it: whatever the
    outcome, [os.environ] is afterwards what it was before the call. *)
Theorem forward_leaves_environ
    (E : Externals) (user_query : option string) (k_arg : option Z) (s : state) :
  environ (proc (snd (forward E user_query k_arg s))) = environ (proc s).
Proof.
  assert (keeps environ_kept (forward E user_query k_arg)) as H.
  { unfold forward. pose proof (get_embeddings_keeps_environ E).
    repeat keeps_step; auto; reflexivity. }
  exact (H s).
Qed.

(** X16: with a number of columns other than one every value goes through [str], so an
    integer and the string of its digits give the same passage; with one
    column the value is passed on as it is and the two stay apart. *)
Theorem format_row_erases_type
    (E : Externals) (columns : list string) (r : row) (c : string) (n : Z)
    (Hint : r !! c = Some (VInt n)) :
  (length columns <> 1%nat ->
   format_row E columns (<[c := VStr (pretty n)]> r) = format_row E columns r)
  /\ format_row E [c] r = Ok (VInt n)
  /\ format_row E [c] (<[c := VStr (pretty n)]> r) = Ok (VStr (pretty n)).
Proof.
  split; [|split].
  - intros Hlen. unfold format_row.
    destruct (length columns =? 1)%nat eqn:Hl; [apply Nat.eqb_eq in Hl; contradiction|].
    assert (row_strings E (<[c := VStr (pretty n)]> r) columns = row_strings E r columns)
      as ->; [|reflexivity].
    clear Hlen Hl. induction columns as [|c0 columns IH]; simpl; [reflexivity|].
    rewrite IH. unfold getitem.
    destruct (decide (c = c0)) as [<-|Hne].
    + rewrite lookup_insert_eq, Hint. reflexivity.
    + rewrite lookup_insert_ne by exact Hne. reflexivity.
  - unfold format_row, getitem. simpl. rewrite Hint. reflexivity.
  - unfold format_row, getitem. simpl. rewrite lookup_insert_eq. reflexivity.
Qed.

Lemma format_row_erases_type_witness :
  format_row Demo.world ["text"; "id"] {[ "text" := VStr "first"; "id" := VStr "7" ]}
  = format_row Demo.world ["text"; "id"] {[ "text" := VStr "first"; "id" := VInt 7 ]}.
Proof.
  exact (proj1 (format_row_erases_type Demo.world ["text"; "id"]
                  {[ "text" := VStr "first"; "id" := VInt 7 ]} "id" 7 eq_refl)
           ltac:(discriminate)).
Defined.
